(** * The Thymio motion controller ([utils/motion.py])

    A shallow embedding of the two classes of [utils/motion.py]:
    [RepeatedTimer], the self-rescheduling timer, and [Robot], the motion
    controller with its obstacle watchdog and wall-following behaviour.

    Python floats are IEEE-754 binary64 numbers and are modelled by Rocq's
    primitive floats; Python integers are modelled by [Z].  The robot, its
    timer and the world they act on (the transport [th], [time.sleep], the
    [threading.Timer] objects) are one explicit [State]; every effect the
    code has on the outside is appended to an event [log].  Printing
    ([verbose]) is not modelled. *)

From Stdlib Require Import ZArith List String Bool Lia.
From Stdlib Require Import Floats.
Import ListNotations.

Set Warnings "-inexact-float".

Open Scope Z_scope.

(** ** Python's arithmetic on floats *)

Module PyFloat.

(** [float(z)]: the nearest binary64 value, [None] where Python raises
    [OverflowError] (int too large to convert to float). *)
Definition of_int (z : Z) : option float :=
  match binary_normalize prec emax z 0 false with
  | S754_infinity _ => None
  | sf => Some (SF2Prim sf)
  end.

Definition is_nan (x : float) : bool := negb (x =? x)%float.

(** C's [fmod]: the exact remainder of [x / y], with the sign of [x]. *)
Definition fmod (x y : float) : float :=
  match Prim2SF x, Prim2SF y with
  | S754_nan, _ | _, S754_nan => nan
  | S754_infinity _, _ => nan
  | _, S754_zero _ => nan
  | S754_zero _, _ => x
  | S754_finite _ _ _, S754_infinity _ => x
  | S754_finite sx mx ex, S754_finite _ my ey =>
      let e := Z.min ex ey in
      let r := (Z.pos mx * 2 ^ (ex - e)) mod (Z.pos my * 2 ^ (ey - e)) in
      if r =? 0 then (if sx then (-0)%float else 0%float)
      else SF2Prim (binary_normalize prec emax (if sx then - r else r) e false)
  end.

(** The value of [vx % wx] for [wx <> 0] (CPython's [float_rem]): the [fmod]
    remainder moved to the sign of the divisor. *)
Definition rem (vx wx : float) : float :=
  let m := fmod vx wx in
  if (m =? 0)%float then (if (wx <? 0)%float then (-0)%float else 0%float)
  else if xorb (wx <? 0)%float (m <? 0)%float then (m + wx)%float
  else m.

(** [vx % wx]; [None] where Python raises [ZeroDivisionError]. *)
Definition mod_ (vx wx : float) : option float :=
  if (wx =? 0)%float then None else Some (rem vx wx).

(** [vx / wx]; [None] where Python raises [ZeroDivisionError]. *)
Definition div (vx wx : float) : option float :=
  if (wx =? 0)%float then None else Some (vx / wx)%float.

(** The comparison of two list items by [==] on lists: item [a] of the one
    and item [b] of the other are equal when they are the same object or when
    [a == b].  Being the same object matters only for NaN, the one value not
    equal to itself; [identical] tells whether the two items are one object. *)
Definition item_eqb (identical : bool) (a b : float) : bool :=
  (a =? b)%float || (identical && is_nan a && is_nan b).

(** [l1 == l2] from index [i] on, where [same_object j] tells whether the
    items at index [j] of the two lists are one object. *)
Fixpoint list_eqb_from (same_object : nat -> bool) (i : nat)
  (l1 l2 : list float) : bool :=
  match l1, l2 with
  | [], [] => true
  | x :: l1', y :: l2' =>
      item_eqb (same_object i) x y && list_eqb_from same_object (S i) l1' l2'
  | _, _ => false
  end.

Definition list_eqb (same_object : nat -> bool) (l1 l2 : list float) : bool :=
  list_eqb_from same_object 0 l1 l2.

End PyFloat.

(** ** The state and the outcome of a call *)

(** What the code does to the outside world, in the order it does it. *)
Inductive event : Type :=
| SetVar (name : string) (value : Z)      (* th.set_var(name, value) *)
| Sleep (seconds : float)                 (* time.sleep(seconds) returned *)
| TimerStart (id : nat) (delay : float)   (* Timer(delay, self._run).start() *)
| TimerCancel (id : nat).                 (* Timer.cancel() *)

Record State : Type := mkState {
  (* the RepeatedTimer [rt] *)
  interval : float;
  is_running : bool;
  _timer : option nat;          (* the Timer object [self._timer] refers to *)
  (* the Robot *)
  curr_pos : list float;
  speed : Z;
  flag_local : bool;
  flag_skip : Z;
  measured_speed : list float;
  (* the world *)
  timers_created : nat;         (* Timer objects created so far *)
  prox_reads : nat;             (* reads of th['prox.horizontal'] so far *)
  flag_reads : nat;             (* foreground reads of the obstacle flag so far *)
  log : list event
}.

Inductive exn : Type :=
| ZeroDivisionError | OverflowError | ValueError | IndexError | AttributeError.

(** A call returns, raises, or is still running when the fuel is spent. *)
Inductive outcome (A : Type) : Type :=
| Ret (a : A) (s : State)
| Raise (e : exn) (s : State)
| OutOfFuel (s : State).
Arguments Ret {A} a s.
Arguments Raise {A} e s.
Arguments OutOfFuel {A} s.

Definition M (A : Type) : Type := State -> outcome A.

Definition ret {A} (a : A) : M A := fun s => Ret a s.
Definition raise {A} (e : exn) : M A := fun s => Raise e s.
Definition out_of_fuel {A} : M A := fun s => OutOfFuel s.

Definition bind {A B} (c : M A) (k : A -> M B) : M B :=
  fun s =>
    match c s with
    | Ret a s' => k a s'
    | Raise e s' => Raise e s'
    | OutOfFuel s' => OutOfFuel s'
    end.

Notation "x <- c ;; k" := (bind c (fun x => k))
  (at level 61, c at next level, right associativity).
Notation "c ;; k" := (bind c (fun _ => k))
  (at level 61, right associativity).

Definition get {A} (f : State -> A) : M A := fun s => Ret (f s) s.
Definition modify (f : State -> State) : M unit := fun s => Ret tt (f s).
Definition of_option {A} (e : exn) (o : option A) : M A :=
  match o with Some a => ret a | None => raise e end.

(** Field updates. *)
Definition set_is_running (b : bool) (s : State) : State :=
  mkState (interval s) b (_timer s) (curr_pos s) (speed s) (flag_local s)
    (flag_skip s) (measured_speed s) (timers_created s) (prox_reads s)
    (flag_reads s) (log s).
Definition set_interval (i : float) (s : State) : State :=
  mkState i (is_running s) (_timer s) (curr_pos s) (speed s) (flag_local s)
    (flag_skip s) (measured_speed s) (timers_created s) (prox_reads s)
    (flag_reads s) (log s).
Definition set_timer (t : option nat) (s : State) : State :=
  mkState (interval s) (is_running s) t (curr_pos s) (speed s) (flag_local s)
    (flag_skip s) (measured_speed s) (timers_created s) (prox_reads s)
    (flag_reads s) (log s).
(** [self._timer = Timer(...)]: a new Timer object, referred to by [_timer]. *)
Definition set_new_timer (s : State) : State :=
  mkState (interval s) (is_running s) (Some (timers_created s)) (curr_pos s)
    (speed s) (flag_local s) (flag_skip s) (measured_speed s)
    (S (timers_created s)) (prox_reads s) (flag_reads s) (log s).
Definition set_curr_pos (p : list float) (s : State) : State :=
  mkState (interval s) (is_running s) (_timer s) p (speed s) (flag_local s)
    (flag_skip s) (measured_speed s) (timers_created s) (prox_reads s)
    (flag_reads s) (log s).
Definition set_speed_field (v : Z) (s : State) : State :=
  mkState (interval s) (is_running s) (_timer s) (curr_pos s) v (flag_local s)
    (flag_skip s) (measured_speed s) (timers_created s) (prox_reads s)
    (flag_reads s) (log s).
Definition set_flag_local (b : bool) (s : State) : State :=
  mkState (interval s) (is_running s) (_timer s) (curr_pos s) (speed s) b
    (flag_skip s) (measured_speed s) (timers_created s) (prox_reads s)
    (flag_reads s) (log s).
Definition set_flag_skip (n : Z) (s : State) : State :=
  mkState (interval s) (is_running s) (_timer s) (curr_pos s) (speed s)
    (flag_local s) n (measured_speed s) (timers_created s) (prox_reads s)
    (flag_reads s) (log s).
Definition set_measured_speed (m : list float) (s : State) : State :=
  mkState (interval s) (is_running s) (_timer s) (curr_pos s) (speed s)
    (flag_local s) (flag_skip s) m (timers_created s) (prox_reads s)
    (flag_reads s) (log s).
Definition tick_prox_reads (s : State) : State :=
  mkState (interval s) (is_running s) (_timer s) (curr_pos s) (speed s)
    (flag_local s) (flag_skip s) (measured_speed s) (timers_created s)
    (S (prox_reads s)) (flag_reads s) (log s).
Definition tick_flag_reads (s : State) : State :=
  mkState (interval s) (is_running s) (_timer s) (curr_pos s) (speed s)
    (flag_local s) (flag_skip s) (measured_speed s) (timers_created s)
    (prox_reads s) (S (flag_reads s)) (log s).
Definition emit (e : event) (s : State) : State :=
  mkState (interval s) (is_running s) (_timer s) (curr_pos s) (speed s)
    (flag_local s) (flag_skip s) (measured_speed s) (timers_created s)
    (prox_reads s) (flag_reads s) (log s ++ [e]).

(** [time.sleep(d)] first converts [d] to whole nanoseconds of a signed
    64-bit clock: NaN raises [ValueError], a product [d * 1e9] outside the
    64-bit range (infinity, or more than about 9.2e9 s either way) raises
    [OverflowError]; then a negative duration raises [ValueError]. *)
Definition sleep_overflows (d : float) : bool :=
  ((d * 1e9 <? -9223372036854775808) || (9223372036854775808 <=? d * 1e9))%float.

Definition time_sleep (d : float) : M unit :=
  if PyFloat.is_nan d then raise ValueError
  else if sleep_overflows d then raise OverflowError
  else if (d <? 0)%float then raise ValueError
  else modify (emit (Sleep d)).

(** [th.set_var(name, value)]: a write to the transport. *)
Definition th_set_var (name : string) (value : Z) : M unit :=
  modify (emit (SetVar name value)).

(** ** class RepeatedTimer *)

Module RepeatedTimer.

(** [start]: when not running, creates a new [Timer(self.interval,
    self._run)], starts it and marks the task running. *)
Definition start : M unit :=
  running <- get is_running ;;
  if negb running then
    id <- get timers_created ;;
    delay <- get interval ;;
    modify set_new_timer ;;
    modify (emit (TimerStart id delay)) ;;
    modify (set_is_running true)
  else ret tt.

(** [stop]: cancels the Timer [self._timer] refers to. *)
Definition stop : M unit :=
  t <- get _timer ;;
  match t with
  | None => raise AttributeError
  | Some id =>
      modify (emit (TimerCancel id)) ;;
      modify (set_is_running false)
  end.

(** [__init__]: the task starts itself. *)
Definition __init__ (seconds : float) : M unit :=
  modify (set_timer None) ;;
  modify (set_interval seconds) ;;
  modify (set_is_running false) ;;
  start.

(** [_run], the callback of every Timer, for the action [function]. *)
Definition _run {A} (function : M A) : M unit :=
  modify (set_is_running false) ;;
  start ;;
  function ;;
  ret tt.

End RepeatedTimer.

(** ** class Robot *)

Module Robot.

(** The two states of the wall-following loop ([prev_state]). *)
Inductive motion : Type := Forward | Turning.

Definition wheeltowheel_length : Z := 95.
Definition speed_to_mm_s : float := 0.31573%float.

(** Negative wheel speeds are sent as 16-bit two's complement ([move]). *)
Definition encode_speed (v : Z) : Z :=
  if v <? 0 then v + 2 ^ 16 else v.

(** Wheel speeds read back above 9999 are negative ones ([get_speed]). *)
Definition decode_speed (r : Z) : Z :=
  if r >? 9999 then r - 2 ^ 16 else r.

(** [self.th['prox.horizontal'][:-2]] *)
Definition but_last_two (l : list Z) : list Z :=
  firstn (List.length l - 2)%nat l.

(** [any([x > wall_threshold for x in readings[:-2]])] *)
Definition sees_wall (wall_threshold : Z) (readings : list Z) : bool :=
  existsb (fun x => x >? wall_threshold) (but_last_two readings).

Definition move (l_speed r_speed : Z) : M unit :=
  let l_speed := encode_speed l_speed in
  let r_speed := encode_speed r_speed in
  th_set_var "motor.left.target" l_speed ;;
  th_set_var "motor.right.target" r_speed.

Definition stop : M unit := move 0 0.

Definition get_position : M (list float) := get curr_pos.
Definition set_position (pos : list float) : M unit := modify (set_curr_pos pos).
Definition set_speed (v : Z) : M unit := modify (set_speed_field v).

Section World.

(** The transport's sensors: the [n]-th read of [th['prox.horizontal']]
    returns [prox_horizontal n]; the wheel speeds read back are
    [motor_left_speed] and [motor_right_speed]. *)
Variable prox_horizontal : nat -> list Z.
Variables motor_left_speed motor_right_speed : Z.

(** [flag_local] is written by the watchdog's thread while the foreground
    waits in [time_move]: the [n]-th time the foreground reads the flag,
    it sees [flag_seen n].  The field [flag_local] of the state is the
    flag as the watchdog's own calls leave it. *)
Variable flag_seen : nat -> bool.

(** The functions of Python's [math] module and [float.__pow__]:
    [math.sqrt] gives [None] where it raises [ValueError] (a negative
    argument), [**] gives [None] where it raises [OverflowError] (a result
    out of range); [math.degrees] and [math.atan2] never raise. *)
Variable math_sqrt : float -> option float.
Variable math_degrees : float -> float.
Variable math_atan2 : float -> float -> float.
Variable float_pow : float -> float -> option float.

(** Whether [target_pos[i]] and [self.curr_pos[i]] are one and the same
    object when [move_to_target] compares the two lists. *)
Variable same_object : nat -> bool.

(** [math.degrees(2*self.speed_to_mm_s/self.wheeltowheel_length)], the
    wheel-to-wheel length 95 taken as a float by the division. *)
Definition speed_to_deg_s : float :=
  math_degrees (2 * speed_to_mm_s / 95)%float.

(** The world before the robot exists: no Timer created, no sensor read,
    nothing in the log. *)
Definition blank : State :=
  mkState 0%float false None [] 0 false 0 [] 0%nat 0%nat 0%nat [].

(** [__init__]: the watchdog [rt] starts itself on construction. *)
Definition __init__ : M unit :=
  modify (set_curr_pos [0%float; 0%float; 0%float]) ;;
  modify (set_speed_field 100) ;;
  RepeatedTimer.__init__ 0.4 ;;
  modify (set_flag_local false) ;;
  modify (set_flag_skip 0).

(** The two readings are taken within the range of [numpy]'s [int64], as
    the 16-bit transport gives them; there the subtraction is exact and each
    element is rounded once, when it is multiplied by the float factor. *)
Definition get_speed : M (list float) :=
  let left := decode_speed motor_left_speed in
  let right := decode_speed motor_right_speed in
  fl <- of_option OverflowError (PyFloat.of_int left) ;;
  fr <- of_option OverflowError (PyFloat.of_int right) ;;
  let measured := [(speed_to_mm_s * fl)%float; (speed_to_mm_s * fr)%float] in
  modify (set_measured_speed measured) ;;
  ret measured.

(** [test_saw_wall], [wall_following] and the [while not found_path] loop
    of [wall_following], which call each other. *)
Fixpoint test_saw_wall (fuel : nat) (thread : bool) (wall_threshold : Z)
  {struct fuel} : M bool :=
  match fuel with
  | O => out_of_fuel
  | S fuel' =>
      n <- get prox_reads ;;
      modify tick_prox_reads ;;
      if sees_wall wall_threshold (prox_horizontal n) then
        if thread then
          RepeatedTimer.stop ;;
          modify (set_flag_local true) ;;
          modify (set_flag_skip 2) ;;
          wall_following fuel' 100 500 ;;
          modify (set_flag_local false) ;;
          RepeatedTimer.start ;;
          ret false
        else ret true
      else ret false
  end

with wall_following (fuel : nat) (motor_speed wall_threshold : Z)
  {struct fuel} : M unit :=
  match fuel with
  | O => out_of_fuel
  | S fuel' =>
      move 100 100 ;;
      wall_following_loop fuel' wall_threshold Forward 0
  end

with wall_following_loop (fuel : nat) (wall_threshold : Z)
  (prev_state : motion) (count : Z) {struct fuel} : M unit :=
  match fuel with
  | O => out_of_fuel
  | S fuel' =>
      saw_wall <- test_saw_wall fuel' false wall_threshold ;;
      next <-
        (if saw_wall then
           match prev_state with
           | Forward =>
               move 100 (-100) ;;
               time_sleep 0.1 ;;
               ret (Turning, 0)
           | Turning => ret (prev_state, count)
           end
         else
           prev_state' <-
             match prev_state with
             | Turning =>
                 move 100 100 ;;
                 time_sleep 0.5 ;;
                 ret Forward
             | Forward =>
                 move (-100) 100 ;;
                 time_sleep 0.15 ;;
                 ret Turning
             end ;;
           ret (prev_state', count + 1)) ;;
      let '(prev_state, count) := next in
      if count >=? 15 then stop
      else wall_following_loop fuel' wall_threshold prev_state count
  end.

(** One foreground read of [self.flag_local]. *)
Definition read_flag : M bool :=
  n <- get flag_reads ;;
  modify tick_flag_reads ;;
  ret (flag_seen n).

(** [while self.flag_local: continue] *)
Fixpoint busy_wait (fuel : nat) : M unit :=
  match fuel with
  | O => out_of_fuel
  | S fuel' =>
      flag <- read_flag ;;
      if flag then busy_wait fuel' else ret tt
  end.

(** The loop [while t <= target_time] of [time_move]. *)
Fixpoint time_move_loop (fuel : nat) (target_time t : float) : M unit :=
  match fuel with
  | O => out_of_fuel
  | S fuel' =>
      if (t <=? target_time)%float then
        flag <- read_flag ;;
        if negb flag then
          time_sleep 0.1 ;;
          time_move_loop fuel' target_time (t + 0.1)%float
        else
          busy_wait fuel' ;;
          time_move_loop fuel' target_time target_time
      else ret tt
  end.

Definition time_move (fuel : nat) (target_time : float) : M unit :=
  time_move_loop fuel target_time 0%float.

(** [x / (self.speed * factor)] *)
Definition per_speed (x factor : float) : M float :=
  v <- get speed ;;
  fv <- of_option OverflowError (PyFloat.of_int v) ;;
  of_option ZeroDivisionError (PyFloat.div x (fv * factor)%float).

(** [turn] returns [Some false] for [return False] and [None] when it
    falls off its end. *)
Definition turn (turn_angle : float) : M (option bool) :=
  target_time <- per_speed (abs turn_angle) speed_to_deg_s ;;
  v <- get speed ;;
  if (0 <? turn_angle)%float then
    move (- v) v ;;
    time_sleep target_time ;;
    ret None
  else if (turn_angle <? 0)%float then
    move v (- v) ;;
    time_sleep target_time ;;
    ret None
  else ret (Some false).

(** [go_straight] has no [return] statement: it returns [None]. *)
Definition go_straight (fuel : nat) (distance : float) : M (option bool) :=
  target_time <- per_speed (abs distance) speed_to_mm_s ;;
  v <- get speed ;;
  (if (0 <? distance)%float then move v v
   else if (distance <? 0)%float then move (- v) (- v)
   else ret tt) ;;
  time_move fuel target_time ;;
  ret None.

(** [l[i]]: raises [IndexError] past the end of the list. *)
Definition item (l : list float) (i : nat) : M float :=
  of_option IndexError (nth_error l i).

Definition move_to_target (fuel : nat) (target_pos : list float)
  : M (option bool) :=
  pos <- get curr_pos ;;
  if PyFloat.list_eqb same_object target_pos (firstn 2 pos) then ret (Some false)
  else
    (* line 104, left to right: indexing, subtraction, square *)
    tx <- item target_pos 0 ;;
    cx <- item pos 0 ;;
    px <- of_option OverflowError (float_pow (tx - cx) 2)%float ;;
    ty <- item target_pos 1 ;;
    cy <- item pos 1 ;;
    py <- of_option OverflowError (float_pow (ty - cy) 2)%float ;;
    distance <- of_option ValueError (math_sqrt (px + py)%float) ;;
    (* line 107 *)
    let path_angle := math_degrees (math_atan2 (ty - cy) (tx - cx))%float in
    (* line 110 *)
    angle <- item pos 2 ;;
    let turn_angle := (path_angle - angle)%float in
    turn_angle <-
      (if (180 <? abs turn_angle)%float then
         of_option ZeroDivisionError
           (PyFloat.mod_ (turn_angle + 360)%float 360%float)
       else ret turn_angle) ;;
    turn turn_angle ;;
    go_straight fuel distance ;;
    ret None.

End World.

End Robot.

(** ** States reached by reading sensors and emitting events *)

(** [advance p f evs s]: [s] after [p] more reads of the proximity sensors,
    [f] more foreground reads of the flag and the events [evs]. *)
Definition advance (p f : nat) (evs : list event) (s : State) : State :=
  mkState (interval s) (is_running s) (_timer s) (curr_pos s) (speed s)
    (flag_local s) (flag_skip s) (measured_speed s) (timers_created s)
    (p + prox_reads s) (f + flag_reads s) (log s ++ evs).

(** The state [start] leaves when the task was not running. *)
Definition rescheduled (s : State) : State :=
  set_is_running true
    (emit (TimerStart (timers_created s) (interval s)) (set_new_timer s)).

Definition state_of {A} (o : outcome A) : State :=
  match o with Ret _ s => s | Raise _ s => s | OutOfFuel s => s end.

Definition outcome_map {A} (g : State -> State) (o : outcome A) : outcome A :=
  match o with
  | Ret a s => Ret a (g s)
  | Raise e s => Raise e (g s)
  | OutOfFuel s => OutOfFuel (g s)
  end.

Definition returned {A} (o : outcome A) : bool :=
  match o with Ret _ _ => true | _ => false end.

(** The wheel speed a transport write stands for, and the writes of a log. *)
Definition is_command (e : event) : bool :=
  match e with SetVar _ _ => true | _ => false end.

Definition commands (evs : list event) : list event := filter is_command evs.

Definition commanded_magnitude (e : event) : option Z :=
  match e with
  | SetVar _ value => Some (Z.abs (Robot.decode_speed value))
  | _ => None
  end.

(** ** Quantities the properties are stated with *)

(** The wrap of the turn angle as the specification words it: over 180 in
    magnitude, the angle becomes [(angle + 360) mod 360]; otherwise it stays. *)
Definition wrap_over_180 (turn_angle : float) : float :=
  if (180 <? abs turn_angle)%float
  then PyFloat.rem (turn_angle + 360)%float 360%float
  else turn_angle.

(** Membership in the half-open range (-180, 180]. *)
Definition within_half_turn (a : float) : bool :=
  ((-180 <? a) && (a <=? 180))%float.

(** The counter [t] of [time_move] after [k] more slices, and after [k]
    slices from the start of the wait. *)
Fixpoint elapsed_from (t : float) (k : nat) : float :=
  match k with
  | O => t
  | S k' => elapsed_from (t + 0.1)%float k'
  end.

Definition elapsed (k : nat) : float := elapsed_from 0%float k.

(** The transport writes of [move(l, r)]. *)
Definition wheels (l r : Z) : list event :=
  [SetVar "motor.left.target" (Robot.encode_speed l);
   SetVar "motor.right.target" (Robot.encode_speed r)].

(** What one clear iteration of the wall-following loop does, by the state
    it starts in, and the state it ends in. *)
Definition clear_step (prev_state : Robot.motion) : list event :=
  match prev_state with
  | Robot.Turning => wheels 100 100 ++ [Sleep 0.5]
  | Robot.Forward => wheels (-100) 100 ++ [Sleep 0.15]
  end.

Definition flip (prev_state : Robot.motion) : Robot.motion :=
  match prev_state with
  | Robot.Turning => Robot.Forward
  | Robot.Forward => Robot.Turning
  end.

(** The events and the last state of [k] clear iterations in a row. *)
Fixpoint clear_steps (k : nat) (prev_state : Robot.motion) : list event :=
  match k with
  | O => []
  | S k' => clear_step prev_state ++ clear_steps k' (flip prev_state)
  end.

Fixpoint flips (k : nat) (prev_state : Robot.motion) : Robot.motion :=
  match k with
  | O => prev_state
  | S k' => flips k' (flip prev_state)
  end.

(** One iteration of the wall-following loop, by what the sensors show
    ([saw_wall]) and the state the loop is in: its events, its next state and
    its next count. *)
Definition step_events (saw_wall : bool) (prev_state : Robot.motion) : list event :=
  if saw_wall then
    match prev_state with
    | Robot.Forward => wheels 100 (-100) ++ [Sleep 0.1]
    | Robot.Turning => []
    end
  else clear_step prev_state.

Definition step_state (saw_wall : bool) (prev_state : Robot.motion) : Robot.motion :=
  if saw_wall then Robot.Turning else flip prev_state.

Definition step_count (saw_wall : bool) (prev_state : Robot.motion) (count : Z) : Z :=
  if saw_wall then
    match prev_state with
    | Robot.Forward => 0
    | Robot.Turning => count
    end
  else count + 1.

(** A sleep, or a wheel command of magnitude 100. *)
Definition full_speed (e : event) : Prop :=
  match e with
  | SetVar _ value => Z.abs (Robot.decode_speed value) = 100
  | Sleep _ => True
  | _ => False
  end.

(** The events of a run of the wall following: at full speed while it runs,
    closed by the stop when it has returned. *)
Definition avoidance_trace {A} (o : outcome A) (evs : list event) : Prop :=
  match o with
  | Ret _ _ => exists body, evs = body ++ wheels 0 0 /\ Forall full_speed body
  | OutOfFuel _ => Forall full_speed evs
  | Raise _ _ => False
  end.

(** A computation that does the same whatever [g] changed in the state. *)
Definition commutes {A} (g : State -> State) (c : M A) : Prop :=
  forall s, c (g s) = outcome_map g (c s).

(** The state in which the scheduled [test_saw_wall] invokes the wall
    following: sensors read, Timer [id] cancelled, flag set, skip counter 2. *)
Definition engaged (id : nat) (s : State) : State :=
  set_flag_skip 2
    (set_flag_local true
       (set_is_running false (emit (TimerCancel id) (tick_prox_reads s)))).

(** The state the scheduled [test_saw_wall] returns in, from the state [s1]
    the wall following returned in: flag cleared, a new Timer started. *)
Definition released (s1 : State) : State :=
  rescheduled (set_flag_local false s1).

(** ** Concrete worlds for the scenarios *)

Module Scenario.

(** CPython's [math.degrees]: [x * (180.0 / pi)]. *)
Definition degrees (x : float) : float :=
  (x * (180 / 0x1.921fb54442d18p+1))%float.

(** [math.atan2] on the four axis directions only (the exact quotients of
    pi that C's Annex F prescribes there); [nan] stands for every other
    direction, which the scenarios do not use. *)
Definition atan2_on_axes (y x : float) : float :=
  if (y =? 0)%float then
    (if (0 <? x)%float then 0%float
     else if (x <? 0)%float then 0x1.921fb54442d18p+1%float else nan)
  else if (x =? 0)%float then
    (if (0 <? y)%float then 0x1.921fb54442d18p+0%float
     else if (y <? 0)%float then (-0x1.921fb54442d18p+0)%float else nan)
  else nan.

(** [x ** 2] as the correctly rounded square, [None] ([OverflowError]) when
    the square of a finite [x] is out of range; other exponents are not used. *)
Definition pow (x y : float) : option float :=
  if (y =? 2)%float then
    (if (abs (x * x) =? infinity)%float && negb (abs x =? infinity)%float
     then None else Some (x * x)%float)
  else Some nan.

(** [math.sqrt]: [None] ([ValueError]) on a negative argument. *)
Definition sqrt (x : float) : option float :=
  if (x <? 0)%float then None else Some (PrimFloat.sqrt x).

(** The target's items and the pose's items are distinct objects. *)
Definition distinct (i : nat) : bool := false.

(** One snapshot with an obstacle in front, then clear snapshots; the two
    rear sensors always read high. *)
Definition obstacle_once (n : nat) : list Z :=
  match n with
  | O => [0; 0; 3100; 0; 0; 4000; 4000]
  | _ => [0; 0; 0; 0; 0; 4000; 4000]
  end.

Definition never_flagged (n : nat) : bool := false.

(** The flag is seen set from the foreground's read number [a] up to, and
    not including, read number [b]. *)
Definition flagged_from_to (a b n : nat) : bool :=
  (a <=? n)%nat && (n <? b)%nat.

(** The robot as constructed: the watchdog's first timer is pending. *)
Definition ready : State := state_of (Robot.__init__ Robot.blank).

End Scenario.

(** ** The watchdog's callback, and further worlds *)

(** What a Timer of the robot's [rt] runs when it fires: [_run], whose action
    is [self.test_saw_wall] with its default arguments ([thread=True],
    [wall_threshold=500]), as [Robot.__init__] registers it. *)
Definition watchdog (prox_horizontal : nat -> list Z) (fuel : nat) : M unit :=
  RepeatedTimer._run (Robot.test_saw_wall prox_horizontal fuel true 500).

Definition raised {A} (o : outcome A) : bool :=
  match o with Raise _ _ => true | _ => false end.



(** What the scheduled [test_saw_wall] makes of the outcome of the wall
    following: it goes on, to [released], only when the wall following has
    returned. *)
Definition after_avoidance (o : outcome unit) : outcome bool :=
  match o with
  | Ret _ s1 => Ret false (rescheduled (set_flag_local false s1))
  | Raise e s1 => Raise e s1
  | OutOfFuel s1 => OutOfFuel s1
  end.

(** Events that are neither Timer starts nor Timer cancellations. *)
Definition motion_event (e : event) : Prop :=
  match e with
  | SetVar _ _ | Sleep _ => True
  | _ => False
  end.

(** A computation whose only effects, however it ends, are foreground reads
    of the flag, transport writes and sleeps: it leaves the pose, the speed
    setting, the flags, the timer and the sensor cursor as they were. *)
Definition moves_only {A} (c : M A) : Prop :=
  forall s : State,
  exists (f : nat) (evs : list event),
    state_of (c s) = advance 0 f evs s /\ Forall motion_event evs.

Module Worlds.

(** A wall in front at every snapshot. *)
Definition wall_ahead (n : nat) : list Z := [0; 0; 2600; 0; 0; 0; 0].

(** Nothing in front at any snapshot; the rear sensors read high. *)
Definition open_floor (n : nat) : list Z := [0; 0; 0; 0; 0; 4100; 4100].

(** A wall at the first snapshot and again at snapshot number [j + 1],
    nothing in between and after. *)
Definition wall_twice (j n : nat) : list Z :=
  if (n =? 0)%nat || (n =? S j)%nat then [0; 0; 2600; 0; 0; 0; 0]
  else [0; 0; 0; 0; 0; 0; 0].

Definition always_flagged (n : nat) : bool := true.

End Worlds.

(** * Properties *)

(** ** Running the monad *)

Lemma bind_Ret {A B} (c : M A) (k : A -> M B) (s s' : State) (a : A) :
  c s = Ret a s' -> bind c k s = k a s'.
Proof. unfold bind; intros ->; reflexivity. Qed.

Lemma bind_assoc {A B C} (c : M A) (k : A -> M B) (h : B -> M C) (s : State) :
  bind (bind c k) h s = bind c (fun a => bind (k a) h) s.
Proof. unfold bind; destruct (c s); reflexivity. Qed.

Lemma advance_nothing (s : State) : advance 0 0 [] s = s.
Proof. destruct s; unfold advance; simpl; rewrite app_nil_r; reflexivity. Qed.

Lemma advance_advance (p f p' f' : nat) (evs evs' : list event) (s : State) :
  advance p' f' evs' (advance p f evs s)
  = advance (p' + p) (f' + f) (evs ++ evs') s.
Proof.
  unfold advance; simpl.
  rewrite <- !Nat.add_assoc, <- app_assoc; reflexivity.
Qed.

Lemma tick_prox_advance (s : State) : tick_prox_reads s = advance 1 0 [] s.
Proof. destruct s; unfold advance, tick_prox_reads; simpl; rewrite app_nil_r; reflexivity. Qed.

Lemma tick_flag_advance (s : State) : tick_flag_reads s = advance 0 1 [] s.
Proof. destruct s; unfold advance, tick_flag_reads; simpl; rewrite app_nil_r; reflexivity. Qed.

(** ** The speed encoding (C5) *)

Lemma round_trip_in_range (v : Z) :
  -9999 <= v <= 9999 -> Robot.decode_speed (Robot.encode_speed v) = v.
Proof.
  intros Hv; unfold Robot.encode_speed, Robot.decode_speed.
  change (2 ^ 16) with 65536.
  destruct (v <? 0) eqn:Hsign.
  - apply Z.ltb_lt in Hsign.
    assert (Hbig : (v + 65536 >? 9999) = true) by (apply Z.gtb_lt; lia).
    rewrite Hbig; lia.
  - apply Z.ltb_ge in Hsign.
    destruct (v >? 9999) eqn:Hbig; [apply Z.gtb_lt in Hbig; lia | reflexivity].
Qed.

(** C5.  A wheel speed between -9999 and -1 is sent to the transport as the
    speed plus 2^16 ([move]) and read back as itself once 2^16 is taken from
    a reading above 9999 ([get_speed]); a speed between 0 and 9999 is sent
    and read back unchanged.  So when the transport reads back what [move]
    wrote, [get_speed] measures the commanded speed times [speed_to_mm_s]. *)
Theorem speed_round_trip (v : Z) :
  (-9999 <= v <= -1 ->
   Robot.encode_speed v = v + 65536 /\
   Robot.decode_speed (Robot.encode_speed v) = v) /\
  (0 <= v <= 9999 ->
   Robot.encode_speed v = v /\
   Robot.decode_speed (Robot.encode_speed v) = v) /\
  (-9999 <= v <= 9999 ->
   forall (fv : float) (s : State),
     PyFloat.of_int v = Some fv ->
     Robot.move v v s = Ret tt (advance 0 0 (wheels v v) s) /\
     Robot.get_speed (Robot.encode_speed v) (Robot.encode_speed v) s
     = Ret [(Robot.speed_to_mm_s * fv)%float; (Robot.speed_to_mm_s * fv)%float]
         (set_measured_speed
            [(Robot.speed_to_mm_s * fv)%float; (Robot.speed_to_mm_s * fv)%float] s)).
Proof.
  split; [| split].
  - intros Hv; split; [| apply round_trip_in_range; lia].
    unfold Robot.encode_speed; change (2 ^ 16) with 65536.
    assert (Hneg : (v <? 0) = true) by (apply Z.ltb_lt; lia).
    rewrite Hneg; reflexivity.
  - intros Hv; split; [| apply round_trip_in_range; lia].
    unfold Robot.encode_speed.
    assert (Hpos : (v <? 0) = false) by (apply Z.ltb_ge; lia).
    rewrite Hpos; reflexivity.
  - intros Hv fv s Hfv; split.
    + unfold Robot.move, th_set_var, bind, modify, emit, advance, wheels; simpl.
      rewrite <- app_assoc; reflexivity.
    + unfold Robot.get_speed.
      rewrite (round_trip_in_range v Hv), Hfv.
      reflexivity.
Qed.

(** ** The periodic task (C1) *)

Lemma start_when_stopped (s : State) :
  is_running s = false -> RepeatedTimer.start s = Ret tt (rescheduled s).
Proof.
  intros Hstopped.
  unfold RepeatedTimer.start, bind, get, modify; rewrite Hstopped; reflexivity.
Qed.

(** C1, as the code has it.  Every firing, [_run] first creates and starts
    the Timer of the next firing, with the delay [interval], and only then
    invokes the action: the action runs in a state where the next firing is
    already pending, and whatever the action does comes after the
    [TimerStart] event in the log. *)
Theorem run_reschedules_before_action {A} (function : M A) (s : State) :
  RepeatedTimer._run function s
  = (function ;; ret tt) (rescheduled (set_is_running false s)) /\
  is_running (rescheduled (set_is_running false s)) = true /\
  _timer (rescheduled (set_is_running false s)) = Some (timers_created s) /\
  log (rescheduled (set_is_running false s))
  = log s ++ [TimerStart (timers_created s) (interval s)].
Proof.
  split; [| repeat split].
  unfold RepeatedTimer._run.
  unfold bind at 1; unfold modify at 1.
  unfold bind at 1.
  rewrite (start_when_stopped (set_is_running false s) eq_refl).
  reflexivity.
Qed.

(** C1 as stated fails: fired on the robot as constructed, with an action
    that takes one second, [_run] starts the next Timer (delay 0.4 s) before
    the action's second begins, not after it; the next firing falls due
    while the action is still running. *)
Lemma run_reschedules_first_example :
  exists s',
    RepeatedTimer._run (time_sleep 1) Scenario.ready = Ret tt s' /\
    log s' = log Scenario.ready ++ [TimerStart 1 0.4; Sleep 1] /\
    log s' <> log Scenario.ready ++ [Sleep 1; TimerStart 1 0.4] /\
    (interval Scenario.ready <? 1)%float = true.
Proof.
  eexists; split; [vm_compute; reflexivity |].
  split; [reflexivity |].
  split; [| reflexivity].
  vm_compute; intros Heq; discriminate Heq.
Qed.

(** ** Facts about binary64 arithmetic *)

Lemma Prim2SF_zero : Prim2SF 0 = S754_zero false.
Proof. reflexivity. Qed.

Lemma float_pos_abs (d : float) : (0 <? d)%float = true -> abs d = d.
Proof.
  rewrite ltb_spec, Prim2SF_zero; intros Hpos.
  apply Prim2SF_inj; rewrite abs_spec.
  destruct (Prim2SF d) as [sd | sd | | sd m e]; try destruct sd; simpl in *;
    try reflexivity; try discriminate.
Qed.

Lemma float_neg_not_pos (d : float) :
  (d <? 0)%float = true -> (0 <? d)%float = false.
Proof.
  rewrite !ltb_spec, Prim2SF_zero.
  destruct (Prim2SF d) as [sd | sd | | sd m e]; try destruct sd; simpl;
    intros; try reflexivity; try discriminate.
Qed.

Lemma float_zero_cases (d : float) :
  (d =? 0)%float = true -> d = 0%float \/ d = (-0)%float.
Proof.
  rewrite eqb_spec, Prim2SF_zero; intros Hz.
  destruct (Prim2SF d) as [sd | sd | | sd m e] eqn:Hd; try destruct sd;
    simpl in Hz; try discriminate;
    [right | left]; apply Prim2SF_inj; rewrite Hd; reflexivity.
Qed.

Lemma zero_div_cases (x : float) :
  (x =? 0)%float = false ->
  (0 / x = 0 \/ 0 / x = -0 \/ 0 / x = nan)%float.
Proof.
  rewrite eqb_spec, Prim2SF_zero; intros Hnz.
  assert (H : Prim2SF (0 / x) = S754_zero false \/
              Prim2SF (0 / x) = S754_zero true \/
              Prim2SF (0 / x) = S754_nan).
  { rewrite div_spec, Prim2SF_zero.
    destruct (Prim2SF x) as [sd | sd | | sd m e]; try destruct sd; simpl in *;
      try discriminate; auto. }
  destruct H as [H | [H | H]]; [left | right; left | right; right];
    apply Prim2SF_inj; rewrite H; reflexivity.
Qed.

Lemma float_leb_refl (x : float) :
  (0 <=? x)%float = true -> (x <=? x)%float = true.
Proof.
  rewrite !leb_spec, Prim2SF_zero.
  destruct (Prim2SF x) as [sd | sd | | sd m e]; try destruct sd; simpl;
    intros; try reflexivity; try discriminate.
  unfold SFleb, SFcompare.
  rewrite Z.compare_refl, Pos.compare_cont_refl; reflexivity.
Qed.


(** ** Primitive steps of the robot *)

Lemma move_writes (l r : Z) (s : State) :
  Robot.move l r s = Ret tt (advance 0 0 (wheels l r) s).
Proof.
  unfold Robot.move, th_set_var, bind, modify, emit, advance, wheels; simpl.
  rewrite <- app_assoc; reflexivity.
Qed.

Lemma time_sleep_returns (d : float) (s : State) :
  PyFloat.is_nan d || sleep_overflows d || (d <? 0)%float = false ->
  time_sleep d s = Ret tt (advance 0 0 [Sleep d] s).
Proof.
  unfold time_sleep; intros Hd.
  apply orb_false_elim in Hd; destruct Hd as [Hd Hneg].
  apply orb_false_elim in Hd; destruct Hd as [Hnan Hover].
  rewrite Hnan, Hover, Hneg; reflexivity.
Qed.

Lemma per_speed_defined (x factor fv : float) (s : State) :
  PyFloat.of_int (speed s) = Some fv ->
  (fv * factor =? 0)%float = false ->
  Robot.per_speed x factor s = Ret (x / (fv * factor))%float s.
Proof.
  intros Hfv Hnz.
  unfold Robot.per_speed, bind, get, of_option, PyFloat.div.
  rewrite Hfv; unfold ret; rewrite Hnz; reflexivity.
Qed.

(** ** The timed wait of [go_straight] *)

Section TimedWait.

Variable flag_seen : nat -> bool.

Lemma read_flag_returns (s : State) :
  Robot.read_flag flag_seen s
  = Ret (flag_seen (flag_reads s)) (advance 0 1 [] s).
Proof.
  unfold Robot.read_flag, bind, get, modify, ret.
  rewrite tick_flag_advance; reflexivity.
Qed.

(** One slice of the wait: the flag is clear, the wait sleeps 0.1 s. *)
Lemma time_move_slice (fuel : nat) (target t : float) (s : State) :
  (t <=? target)%float = true ->
  flag_seen (flag_reads s) = false ->
  Robot.time_move_loop flag_seen (S fuel) target t s
  = Robot.time_move_loop flag_seen fuel target (t + 0.1)%float
      (advance 0 1 [Sleep 0.1] s).
Proof.
  intros Hrunning Hclear.
  simpl Robot.time_move_loop; rewrite Hrunning.
  rewrite (bind_Ret _ _ _ _ _ (read_flag_returns s)), Hclear.
  cbv beta iota delta [negb].
  rewrite (bind_Ret _ _ _ _ _ (time_sleep_returns 0.1 _ eq_refl)).
  rewrite advance_advance; reflexivity.
Qed.

(** The wait ends once the counter has passed the planned duration. *)
Lemma time_move_over (fuel : nat) (target t : float) (s : State) :
  (t <=? target)%float = false ->
  Robot.time_move_loop flag_seen (S fuel) target t s = Ret tt s.
Proof. intros Hover; simpl; rewrite Hover; reflexivity. Qed.


(** [k] slices in a row. *)
Lemma time_move_slices (k fuel : nat) (target : float) :
  forall (t : float) (s : State),
    (forall j, (j < k)%nat -> (elapsed_from t j <=? target)%float = true) ->
    (forall j, (j < k)%nat -> flag_seen (j + flag_reads s) = false) ->
    Robot.time_move_loop flag_seen (k + fuel) target t s
    = Robot.time_move_loop flag_seen fuel target (elapsed_from t k)
        (advance 0 k (repeat (Sleep 0.1) k) s).
Proof.
  induction k as [| k IH]; intros t s Hrunning Hclear.
  - simpl; rewrite advance_nothing; reflexivity.
  - change (S k + fuel)%nat with (S (k + fuel)).
    rewrite time_move_slice;
      [| exact (Hrunning 0%nat ltac:(lia)) | exact (Hclear 0%nat ltac:(lia))].
    rewrite IH.
    + rewrite advance_advance.
      replace (k + 1)%nat with (S k) by lia; reflexivity.
    + intros j Hj; exact (Hrunning (S j) ltac:(lia)).
    + intros j Hj.
      rewrite <- (Hclear (S j) ltac:(lia)).
      f_equal; simpl; lia.
Qed.

(** One read of the busy wait. *)
Lemma busy_wait_read (fuel : nat) (s : State) :
  Robot.busy_wait flag_seen (S fuel) s
  = if flag_seen (flag_reads s)
    then Robot.busy_wait flag_seen fuel (advance 0 1 [] s)
    else Ret tt (advance 0 1 [] s).
Proof.
  simpl Robot.busy_wait.
  rewrite (bind_Ret _ _ _ _ _ (read_flag_returns s)).
  destruct (flag_seen (flag_reads s)); reflexivity.
Qed.

(** The busy wait reads the flag until it is clear. *)
Lemma busy_wait_until_clear (m fuel : nat) :
  forall s : State,
    (forall j, (j < m)%nat -> flag_seen (j + flag_reads s) = true) ->
    flag_seen (m + flag_reads s) = false ->
    Robot.busy_wait flag_seen (S m + fuel) s = Ret tt (advance 0 (S m) [] s).
Proof.
  induction m as [| m IH]; intros s Hset Hclear.
  - change (1 + fuel)%nat with (S fuel).
    rewrite busy_wait_read.
    change (flag_seen (flag_reads s)) with (flag_seen (0 + flag_reads s)).
    rewrite Hclear; reflexivity.
  - change (S (S m) + fuel)%nat with (S (S m + fuel)).
    rewrite busy_wait_read.
    change (flag_seen (flag_reads s)) with (flag_seen (0 + flag_reads s)).
    rewrite (Hset 0%nat) by lia.
    rewrite IH.
    + rewrite advance_advance.
      replace (S m + 1)%nat with (S (S m)) by lia; reflexivity.
    + intros j Hj.
      rewrite <- (Hset (S j) ltac:(lia)).
      f_equal; simpl; lia.
    + rewrite <- Hclear.
      f_equal; simpl; lia.
Qed.

(** The poll that sees the flag set: the counter becomes the planned
    duration and the wait blocks in the busy wait. *)
Lemma time_move_flagged (fuel : nat) (target t : float) (s : State) :
  (t <=? target)%float = true ->
  flag_seen (flag_reads s) = true ->
  Robot.time_move_loop flag_seen (S fuel) target t s
  = (Robot.busy_wait flag_seen fuel ;;
     Robot.time_move_loop flag_seen fuel target target) (advance 0 1 [] s).
Proof.
  intros Hrunning Hset.
  simpl Robot.time_move_loop; rewrite Hrunning.
  rewrite (bind_Ret _ _ _ _ _ (read_flag_returns s)), Hset; reflexivity.
Qed.

(** A counter that adding 0.1 does not move, and that has not passed the
    planned duration, never passes it: with the flag clear from then on the
    wait goes on, slice after slice. *)
Lemma time_move_loop_stuck (target t : float) (fuel : nat) :
  forall s : State,
    (t <=? target)%float = true ->
    (t + 0.1)%float = t ->
    (forall n, (flag_reads s <= n)%nat -> flag_seen n = false) ->
    exists s1 : State,
      Robot.time_move_loop flag_seen fuel target t s = OutOfFuel s1.
Proof.
  induction fuel as [| fuel IH]; intros s Hrunning Hstuck Hclear.
  - exists s; reflexivity.
  - rewrite time_move_slice; [| exact Hrunning | apply Hclear; lia].
    rewrite Hstuck.
    apply IH; [exact Hrunning | exact Hstuck |].
    intros n Hn; apply Hclear; simpl in Hn; lia.
Qed.

(** C2, as the code has it.  The wait polls the flag once per 0.1 s slice.
    When the flag is first seen set at poll number [k], the planned duration
    not having elapsed at any poll so far, the counter is set to the planned
    duration and the call reads the flag until it is clear ([m] more reads
    see it set); when the flag is still clear at the next poll and
    [target + 0.1] exceeds [target] in binary64, the wait then ends after
    one closing slice, having slept [k + 1] slices whatever the planned
    duration was. *)
Theorem time_move_interrupted (k m fuel : nat) (target : float) (s : State) :
  (forall j, (j <= k)%nat -> (elapsed j <=? target)%float = true) ->
  (forall j, (j < k)%nat -> flag_seen (j + flag_reads s) = false) ->
  flag_seen (k + flag_reads s) = true ->
  (forall j, (j < m)%nat -> flag_seen (S k + j + flag_reads s) = true) ->
  flag_seen (S k + m + flag_reads s) = false ->
  flag_seen (S (S k) + m + flag_reads s) = false ->
  (target + 0.1 <=? target)%float = false ->
  Robot.time_move flag_seen (k + (m + 3 + fuel)) target s
  = Robot.time_move_loop flag_seen (m + 3 + fuel) target (elapsed k)
      (advance 0 k (repeat (Sleep 0.1) k) s) /\
  Robot.time_move_loop flag_seen (m + 3 + fuel) target (elapsed k)
    (advance 0 k (repeat (Sleep 0.1) k) s)
  = Robot.time_move_loop flag_seen (m + 2 + fuel) target target
      (advance 0 (k + m + 2) (repeat (Sleep 0.1) k) s) /\
  Robot.time_move flag_seen (k + (m + 3 + fuel)) target s
  = Ret tt (advance 0 (k + m + 3) (repeat (Sleep 0.1) (k + 1)) s).
Proof.
  intros Hrunning Hclear Hset Hblocked Hcleared Hstill Hfinite.
  assert (Hslices :
    Robot.time_move flag_seen (k + (m + 3 + fuel)) target s
    = Robot.time_move_loop flag_seen (m + 3 + fuel) target (elapsed k)
        (advance 0 k (repeat (Sleep 0.1) k) s)).
  { unfold Robot.time_move, elapsed.
    apply time_move_slices.
    - intros j Hj; apply (Hrunning j); lia.
    - exact Hclear. }
  assert (Hblock :
    Robot.time_move_loop flag_seen (m + 3 + fuel) target (elapsed k)
      (advance 0 k (repeat (Sleep 0.1) k) s)
    = Robot.time_move_loop flag_seen (m + 2 + fuel) target target
        (advance 0 (k + m + 2) (repeat (Sleep 0.1) k) s)).
  { replace (m + 3 + fuel)%nat with (S (S m + (1 + fuel))) by lia.
    rewrite time_move_flagged.
    - assert (Hbusy :
        Robot.busy_wait flag_seen (S m + (1 + fuel))
          (advance 0 1 [] (advance 0 k (repeat (Sleep 0.1) k) s))
        = Ret tt (advance 0 (S m) []
                    (advance 0 1 [] (advance 0 k (repeat (Sleep 0.1) k) s)))).
      { apply busy_wait_until_clear.
        - intros j Hj.
          rewrite <- (Hblocked j Hj).
          f_equal; simpl; lia.
        - rewrite <- Hcleared.
          f_equal; simpl; lia. }
      rewrite (bind_Ret _ _ _ _ _ Hbusy); cbv beta.
      rewrite !advance_advance.
      replace (S m + 1 + k)%nat with (k + m + 2)%nat by lia.
      replace (S m + (1 + fuel))%nat with (m + 2 + fuel)%nat by lia.
      rewrite !app_nil_r; reflexivity.
    - apply (Hrunning k); lia.
    - rewrite <- Hset; f_equal; simpl; lia. }
  split; [exact Hslices | split; [exact Hblock |]].
  rewrite Hslices, Hblock.
  replace (m + 2 + fuel)%nat with (S (S (m + fuel))) by lia.
  rewrite time_move_slice.
  - rewrite time_move_over by exact Hfinite.
    rewrite advance_advance.
    replace (1 + (k + m + 2))%nat with (k + m + 3)%nat by lia.
    rewrite (repeat_app (Sleep 0.1) k 1); reflexivity.
  - apply float_leb_refl.
    exact (Hrunning 0%nat ltac:(lia)).
  - rewrite <- Hstill; f_equal; simpl; lia.
Qed.

End TimedWait.

(** C2 as stated fails.  A wait of 0.3 s in which the third poll sees the
    flag set sleeps three slices, as the undisturbed wait of 0.3 s does: the
    slice that remained is slept after the block.  And a wait whose planned
    duration does not grow by adding 0.1 (infinity here) does not complete
    after the flag has cleared, however long it is run: the counter, set to
    the planned duration, never passes it. *)
Lemma time_move_interrupted_still_waits :
  Robot.time_move (Scenario.flagged_from_to 2 4) 10 0.3 Scenario.ready
  = Ret tt (advance 0 6 (repeat (Sleep 0.1) 3) Scenario.ready) /\
  Robot.time_move Scenario.never_flagged 10 0.3 Scenario.ready
  = Ret tt (advance 0 3 (repeat (Sleep 0.1) 3) Scenario.ready) /\
  forall fuel : nat,
    returned
      (Robot.time_move (Scenario.flagged_from_to 0 1) fuel infinity
         Scenario.ready) = false.
Proof.
  split; [vm_compute; reflexivity |].
  split; [vm_compute; reflexivity |].
  intros fuel.
  destruct fuel as [| fuel]; [reflexivity |].
  unfold Robot.time_move.
  rewrite time_move_flagged by reflexivity.
  destruct fuel as [| fuel]; [reflexivity |].
  assert (Hbusy :
    Robot.busy_wait (Scenario.flagged_from_to 0 1) (S fuel)
      (advance 0 1 [] Scenario.ready)
    = Ret tt (advance 0 1 [] (advance 0 1 [] Scenario.ready)))
    by (rewrite busy_wait_read; reflexivity).
  rewrite (bind_Ret _ _ _ _ _ Hbusy); cbv beta.
  destruct (time_move_loop_stuck (Scenario.flagged_from_to 0 1)
              infinity infinity (S fuel)
              (advance 0 1 [] (advance 0 1 [] Scenario.ready))
              eq_refl eq_refl) as [s1 Hs1].
  - intros n Hn.
    change (2 <= n)%nat in Hn.
    destruct n as [| [| n]]; [lia | lia | reflexivity].
  - rewrite Hs1; reflexivity.
Qed.

(** ** The motion primitives (C6, C7, C8, C9) *)

Section Motion.

Variable flag_seen : nat -> bool.
Variable math_sqrt : float -> option float.
Variable math_degrees : float -> float.
Variable math_atan2 : float -> float -> float.
Variable float_pow : float -> float -> option float.
Variable same_object : nat -> bool.

Local Abbreviation go_straight := (Robot.go_straight flag_seen).
Local Abbreviation time_move := (Robot.time_move flag_seen).
Local Abbreviation turn := (Robot.turn math_degrees).
Local Abbreviation speed_to_deg_s := (Robot.speed_to_deg_s math_degrees).
Local Abbreviation move_to_target :=
  (Robot.move_to_target flag_seen math_sqrt math_degrees math_atan2 float_pow
     same_object).

(** C6, with the speed settings it holds for.  When the speed setting [s]
    is an integer whose product with the linear factor is not zero,
    [go_straight] of a positive distance [d] writes [s] to both wheels and
    then waits the planned duration [d / (s * speed_to_mm_s)]; of a negative
    distance, it writes [-s] to both wheels and waits
    [|d| / (s * speed_to_mm_s)]. *)
Theorem go_straight_plan (fuel : nat) (d fv : float) (s : State) :
  PyFloat.of_int (speed s) = Some fv ->
  (fv * Robot.speed_to_mm_s =? 0)%float = false ->
  ((0 <? d)%float = true ->
   go_straight fuel d s
   = (time_move fuel (d / (fv * Robot.speed_to_mm_s))%float ;; ret None)
       (advance 0 0
          [SetVar "motor.left.target" (Robot.encode_speed (speed s));
           SetVar "motor.right.target" (Robot.encode_speed (speed s))] s)) /\
  ((d <? 0)%float = true ->
   go_straight fuel d s
   = (time_move fuel (abs d / (fv * Robot.speed_to_mm_s))%float ;; ret None)
       (advance 0 0
          [SetVar "motor.left.target" (Robot.encode_speed (- speed s));
           SetVar "motor.right.target" (Robot.encode_speed (- speed s))] s)).
Proof.
  intros Hfv Hnz; split; intros Hsign; unfold Robot.go_straight.
  - rewrite (bind_Ret _ _ _ _ _ (per_speed_defined _ _ _ _ Hfv Hnz)).
    unfold bind at 1; unfold get at 1.
    rewrite Hsign, (float_pos_abs d Hsign).
    rewrite (bind_Ret _ _ _ _ _ (move_writes _ _ s)); reflexivity.
  - rewrite (bind_Ret _ _ _ _ _ (per_speed_defined _ _ _ _ Hfv Hnz)).
    unfold bind at 1; unfold get at 1.
    rewrite (float_neg_not_pos d Hsign), Hsign.
    rewrite (bind_Ret _ _ _ _ _ (move_writes _ _ s)); reflexivity.
Qed.

(** C6 as stated fails at the speed setting 0: [go_straight] raises
    [ZeroDivisionError] while computing the duration, before any wheel is
    commanded. *)
Lemma go_straight_speed_zero :
  Robot.go_straight Scenario.never_flagged 10 1 (set_speed_field 0 Scenario.ready)
  = Raise ZeroDivisionError (set_speed_field 0 Scenario.ready).
Proof. vm_compute; reflexivity. Qed.

(** C8.  When the target's coordinates equal the [x] and [y] of the stored
    pose, [move_to_target] returns [False] at once and leaves the state as it
    was: nothing is written to the transport. *)
Theorem move_to_target_at_target
  (fuel : nat) (tx ty cx cy : float) (rest : list float) (s : State) :
  curr_pos s = cx :: cy :: rest ->
  (tx =? cx)%float = true ->
  (ty =? cy)%float = true ->
  move_to_target fuel [tx; ty] s = Ret (Some false) s.
Proof.
  intros Hpos Hx Hy.
  unfold Robot.move_to_target, bind, get; rewrite Hpos.
  assert (Hsame : PyFloat.list_eqb same_object [tx; ty]
                    (firstn 2 (cx :: cy :: rest)) = true).
  { unfold PyFloat.list_eqb; simpl; unfold PyFloat.item_eqb.
    rewrite Hx, Hy; reflexivity. }
  rewrite Hsame; reflexivity.
Qed.



End Motion.

Section TurnAngle.

Variable flag_seen : nat -> bool.
Variable math_sqrt : float -> option float.
Variable math_degrees : float -> float.
Variable math_atan2 : float -> float -> float.
Variable float_pow : float -> float -> option float.
Variable same_object : nat -> bool.

Local Abbreviation go_straight := (Robot.go_straight flag_seen).
Local Abbreviation turn := (Robot.turn math_degrees).
Local Abbreviation move_to_target :=
  (Robot.move_to_target flag_seen math_sqrt math_degrees math_atan2 float_pow
     same_object).

Lemma mod_360 (x : float) : PyFloat.mod_ x 360 = Some (PyFloat.rem x 360).
Proof. reflexivity. Qed.

(** Line 104 when both squares and the square root are defined, up to the
    call of [turn]. *)
Lemma move_to_target_away
  (fuel : nat) (tx ty cx cy angle px py distance : float)
  (trest crest : list float) (s : State) :
  curr_pos s = cx :: cy :: angle :: crest ->
  PyFloat.list_eqb same_object (tx :: ty :: trest) [cx; cy] = false ->
  float_pow (tx - cx) 2 = Some px ->
  float_pow (ty - cy) 2 = Some py ->
  math_sqrt (px + py) = Some distance ->
  move_to_target fuel (tx :: ty :: trest) s
  = (turn (wrap_over_180
             (math_degrees (math_atan2 (ty - cy) (tx - cx)) - angle)%float) ;;
     go_straight fuel distance ;;
     ret None) s.
Proof.
  intros Hpos Haway Hpx Hpy Hsqrt.
  unfold Robot.move_to_target.
  unfold bind at 1; unfold get at 1.
  rewrite Hpos.
  change (firstn 2 (cx :: cy :: angle :: crest)) with [cx; cy].
  rewrite Haway.
  unfold Robot.item; simpl nth_error.
  unfold bind at 1; unfold of_option at 1; unfold ret at 1.
  unfold bind at 1; unfold of_option at 1; unfold ret at 1.
  rewrite Hpx.
  unfold bind at 1; unfold of_option at 1; unfold ret at 1.
  unfold bind at 1; unfold of_option at 1; unfold ret at 1.
  unfold bind at 1; unfold of_option at 1; unfold ret at 1.
  rewrite Hpy.
  unfold bind at 1; unfold of_option at 1; unfold ret at 1.
  rewrite Hsqrt.
  unfold bind at 1; unfold of_option at 1; unfold ret at 1.
  unfold bind at 1; unfold of_option at 1; unfold ret at 1.
  unfold wrap_over_180.
  destruct (180 <? abs (math_degrees (math_atan2 (ty - cy) (tx - cx)) - angle))%float.
  - rewrite mod_360; reflexivity.
  - reflexivity.
Qed.

(** C7, as the code has it.  Away from the target, and when the squares of
    the two coordinate differences do not overflow, [move_to_target] calls
    [turn] with the path angle (atan2 of the deltas, in degrees) minus the
    current angle, wrapped by [(angle + 360) mod 360] exactly when its
    magnitude is over 180, and then [go_straight] with the distance.  The
    wrap leaves every angle of magnitude at most 180 as it is, and does not
    bring every angle into (-180, 180]: 270 stays 270, which is what [turn]
    gets when the robot heads to -180 degrees and the path angle is 90. *)
Theorem move_to_target_turn_angle :
  (forall (fuel : nat) (tx ty cx cy angle px py distance : float)
          (trest crest : list float) (s : State),
      curr_pos s = cx :: cy :: angle :: crest ->
      PyFloat.list_eqb same_object (tx :: ty :: trest) [cx; cy] = false ->
      float_pow (tx - cx) 2 = Some px ->
      float_pow (ty - cy) 2 = Some py ->
      math_sqrt (px + py) = Some distance ->
      move_to_target fuel (tx :: ty :: trest) s
      = (turn (wrap_over_180
                 (math_degrees (math_atan2 (ty - cy) (tx - cx)) - angle)%float) ;;
         go_straight fuel distance ;;
         ret None) s) /\
  (forall a : float, (180 <? abs a)%float = false -> wrap_over_180 a = a) /\
  (forall a : float,
      (180 <? abs a)%float = true ->
      wrap_over_180 a = PyFloat.rem (a + 360)%float 360%float) /\
  ((180 <? abs 270)%float = true /\
   wrap_over_180 270 = 270%float /\
   within_half_turn (wrap_over_180 270) = false) /\
  (math_degrees (math_atan2 100 0) = 90%float ->
   forall (fuel : nat) (px py distance : float) (s : State),
     curr_pos s = [0; 0; -180]%float ->
     float_pow 0 2 = Some px ->
     float_pow 100 2 = Some py ->
     math_sqrt (px + py) = Some distance ->
     move_to_target fuel [0; 100]%float s
     = (turn 270 ;; go_straight fuel distance ;; ret None) s).
Proof.
  split; [exact move_to_target_away |].
  split; [intros a Ha; unfold wrap_over_180; rewrite Ha; reflexivity |].
  split; [intros a Ha; unfold wrap_over_180; rewrite Ha; reflexivity |].
  split; [repeat split |].
  intros Hpath fuel px py distance s Hpos Hpx Hpy Hsqrt.
  assert (Haway : PyFloat.list_eqb same_object [0; 100]%float [0; 0]%float = false).
  { unfold PyFloat.list_eqb; simpl; unfold PyFloat.item_eqb.
    destruct (same_object 0), (same_object 1); reflexivity. }
  rewrite (move_to_target_away fuel 0%float 100%float _ _ _ px py distance
             [] [] s Hpos Haway Hpx Hpy Hsqrt).
  change (100 - 0)%float with 100%float.
  change (0 - 0)%float with 0%float.
  rewrite Hpath; reflexivity.
Qed.

(** C7 as stated fails: it speaks of every pose and target, and a target
    whose difference with the pose squares beyond binary64 makes line 104
    raise [OverflowError]; [turn] is not called and nothing is commanded. *)
Lemma move_to_target_far_target_overflows :
  PyFloat.list_eqb Scenario.distinct [1e200; 0]%float
    (firstn 2 (curr_pos Scenario.ready)) = false /\
  forall fuel : nat,
    Robot.move_to_target Scenario.never_flagged Scenario.sqrt Scenario.degrees
      Scenario.atan2_on_axes Scenario.pow Scenario.distinct fuel
      [1e200; 0]%float Scenario.ready
    = Raise OverflowError Scenario.ready.
Proof.
  split; [vm_compute; reflexivity |].
  intros fuel; vm_compute; reflexivity.
Qed.

End TurnAngle.

(** ** The obstacle watchdog and the wall following (C3, C4, C10) *)

Section Avoidance.

Variable prox_horizontal : nat -> list Z.

Local Abbreviation test_saw_wall := (Robot.test_saw_wall prox_horizontal).
Local Abbreviation wall_following := (Robot.wall_following prox_horizontal).
Local Abbreviation wall_following_loop := (Robot.wall_following_loop prox_horizontal).
Local Abbreviation seen wall_threshold s :=
  (Robot.sees_wall wall_threshold (prox_horizontal (prox_reads s))).

(** The query form reads the sensors once and changes nothing else. *)
Lemma test_saw_wall_query (fuel : nat) (wall_threshold : Z) (s : State) :
  test_saw_wall (S fuel) false wall_threshold s
  = Ret (seen wall_threshold s) (advance 1 0 [] s).
Proof.
  simpl Robot.test_saw_wall.
  unfold bind, get, modify; rewrite tick_prox_advance.
  destruct (seen wall_threshold s); reflexivity.
Qed.

Lemma stop_writes (s : State) :
  Robot.stop s = Ret tt (advance 0 0 (wheels 0 0) s).
Proof. apply move_writes. Qed.

(** One iteration of the loop. *)
Lemma loop_iteration (fuel : nat) (wall_threshold : Z)
  (prev_state : Robot.motion) (count : Z) (s : State) :
  wall_following_loop (S (S fuel)) wall_threshold prev_state count s
  = if step_count (seen wall_threshold s) prev_state count >=? 15
    then Ret tt (advance 1 0
                   (step_events (seen wall_threshold s) prev_state ++ wheels 0 0) s)
    else wall_following_loop (S fuel) wall_threshold
           (step_state (seen wall_threshold s) prev_state)
           (step_count (seen wall_threshold s) prev_state count)
           (advance 1 0 (step_events (seen wall_threshold s) prev_state) s).
Proof.
  change (wall_following_loop (S (S fuel)) wall_threshold prev_state count)
    with (saw_wall <- test_saw_wall (S fuel) false wall_threshold ;;
          next <-
            (if saw_wall then
               match prev_state with
               | Robot.Forward =>
                   Robot.move 100 (-100) ;; time_sleep 0.1 ;;
                   ret (Robot.Turning, 0)
               | Robot.Turning => ret (prev_state, count)
               end
             else
               prev_state' <-
                 match prev_state with
                 | Robot.Turning =>
                     Robot.move 100 100 ;; time_sleep 0.5 ;; ret Robot.Forward
                 | Robot.Forward =>
                     Robot.move (-100) 100 ;; time_sleep 0.15 ;; ret Robot.Turning
                 end ;;
               ret (prev_state', count + 1)) ;;
          let '(prev_state, count) := next in
          if count >=? 15 then Robot.stop
          else wall_following_loop (S fuel) wall_threshold prev_state count).
  rewrite (bind_Ret _ _ _ _ _ (test_saw_wall_query fuel wall_threshold s)).
  destruct (seen wall_threshold s), prev_state;
    unfold step_count, step_events, step_state, clear_step, flip;
    unfold bind, ret; cbv beta iota;
    repeat (first [ rewrite move_writes
                  | rewrite time_sleep_returns by reflexivity
                  | rewrite advance_advance ];
            cbv beta iota);
    simpl Nat.add; simpl app;
    match goal with
    | |- context [?c >=? 15] => destruct (c >=? 15)
    end;
    try reflexivity;
    rewrite stop_writes, advance_advance; reflexivity.
Qed.

(** [k] clear iterations in a row, while the count stays below 15. *)
Lemma loop_clear_run (k fuel : nat) (wall_threshold : Z) :
  forall (prev_state : Robot.motion) (count : Z) (s : State),
    (forall i, (i < k)%nat ->
       Robot.sees_wall wall_threshold (prox_horizontal (i + prox_reads s)) = false) ->
    count + Z.of_nat k < 15 ->
    wall_following_loop (k + S fuel) wall_threshold prev_state count s
    = wall_following_loop (S fuel) wall_threshold (flips k prev_state)
        (count + Z.of_nat k) (advance k 0 (clear_steps k prev_state) s).
Proof.
  induction k as [| k IH]; intros prev_state count s Hclear Hcount.
  - simpl; rewrite advance_nothing, Z.add_0_r; reflexivity.
  - replace (S k + S fuel)%nat with (S (S (k + fuel))) by lia.
    rewrite loop_iteration.
    assert (Hfirst : seen wall_threshold s = false) by (apply (Hclear 0%nat); lia).
    rewrite Hfirst.
    unfold step_count, step_events, step_state.
    destruct (count + 1 >=? 15) eqn:Hend; [apply Z.geb_le in Hend; lia |].
    replace (S (k + fuel)) with (k + S fuel)%nat by lia.
    rewrite IH.
    + rewrite advance_advance.
      replace (k + 1)%nat with (S k) by lia.
      replace (count + 1 + Z.of_nat k) with (count + Z.of_nat (S k)) by lia.
      reflexivity.
    + intros i Hi.
      rewrite <- (Hclear (S i) ltac:(lia)).
      do 2 f_equal; simpl; lia.
    + lia.
Qed.

(** The iteration that brings the count to 15 stops the motors and ends
    the loop. *)
Lemma loop_last_clear (fuel : nat) (wall_threshold : Z)
  (prev_state : Robot.motion) (s : State) :
  seen wall_threshold s = false ->
  wall_following_loop (S (S fuel)) wall_threshold prev_state 14 s
  = Ret tt (advance 1 0 (clear_step prev_state ++ wheels 0 0) s).
Proof.
  intros Hclear; rewrite loop_iteration, Hclear; reflexivity.
Qed.

(** C4.  When the sensors show an obstacle at the first detection of
    [wall_following] and then nothing at the next 15, the call returns after
    these 16 detections: the turn to the right, then 15 clear iterations,
    then both motor targets set to 0.  The same holds when all of its first
    15 detections are clear (the obstacle being the one that triggered the
    watchdog). *)
Theorem wall_following_returns_after_15_clear
  (fuel : nat) (motor_speed wall_threshold : Z) (s : State) :
  (seen wall_threshold s = true ->
   (forall i, (1 <= i <= 15)%nat ->
      Robot.sees_wall wall_threshold (prox_horizontal (i + prox_reads s)) = false) ->
   wall_following (18 + fuel) motor_speed wall_threshold s
   = Ret tt
       (advance 16 0
          (wheels 100 100 ++ (wheels 100 (-100) ++ [Sleep 0.1]) ++
           clear_steps 15 Robot.Turning ++ wheels 0 0) s)) /\
  ((forall i, (i < 15)%nat ->
      Robot.sees_wall wall_threshold (prox_horizontal (i + prox_reads s)) = false) ->
   wall_following (17 + fuel) motor_speed wall_threshold s
   = Ret tt
       (advance 15 0
          (wheels 100 100 ++ clear_steps 15 Robot.Forward ++ wheels 0 0) s)).
Proof.
  split.
  - intros Hwall Hclear.
    change (wall_following (18 + fuel) motor_speed wall_threshold)
      with (Robot.move 100 100 ;;
            wall_following_loop (S (S (15 + fuel))) wall_threshold Robot.Forward 0).
    rewrite (bind_Ret _ _ _ _ _ (move_writes _ _ s)).
    rewrite loop_iteration.
    change (prox_reads (advance 0 0 _ s)) with (prox_reads s).
    rewrite Hwall.
    change (step_count true Robot.Forward 0 >=? 15) with false.
    cbv iota.
    replace (S (15 + fuel)) with (14 + S (S fuel))%nat by lia.
    rewrite (loop_clear_run 14).
    + rewrite loop_last_clear.
      * rewrite !advance_advance; reflexivity.
      * exact (Hclear 15%nat ltac:(lia)).
    + intros i Hi.
      rewrite <- (Hclear (S i) ltac:(lia)).
      do 2 f_equal; simpl; lia.
    + reflexivity.
  - intros Hclear.
    change (wall_following (17 + fuel) motor_speed wall_threshold)
      with (Robot.move 100 100 ;;
            wall_following_loop (14 + S (S fuel)) wall_threshold Robot.Forward 0).
    rewrite (bind_Ret _ _ _ _ _ (move_writes _ _ s)).
    rewrite (loop_clear_run 14).
    + rewrite loop_last_clear.
      * rewrite !advance_advance; reflexivity.
      * exact (Hclear 14%nat ltac:(lia)).
    + intros i Hi; exact (Hclear i ltac:(lia)).
    + reflexivity.
Qed.

(** *** What a run of the wall following leaves behind *)

Lemma wheels_full_speed (l r : Z) :
  Z.abs l = 100 -> Z.abs r = 100 -> Forall full_speed (wheels l r).
Proof.
  intros Hl Hr.
  assert (Hcases : forall v, Z.abs v = 100 -> v = 100 \/ v = -100) by lia.
  destruct (Hcases l Hl), (Hcases r Hr); subst;
    repeat constructor.
Qed.

Lemma step_events_full_speed (saw_wall : bool) (prev_state : Robot.motion) :
  Forall full_speed (step_events saw_wall prev_state).
Proof.
  destruct saw_wall, prev_state; unfold step_events, clear_step;
    repeat (apply Forall_app; split);
    try (apply wheels_full_speed; reflexivity);
    repeat constructor.
Qed.

Lemma avoidance_trace_after {A} (o : outcome A) (before evs : list event) :
  Forall full_speed before ->
  avoidance_trace o evs -> avoidance_trace o (before ++ evs).
Proof.
  intros Hbefore; destruct o as [a s | e s | s]; simpl.
  - intros [body [-> Hbody]].
    exists (before ++ body); split; [apply app_assoc |].
    apply Forall_app; split; assumption.
  - intros [].
  - intros Hevs; apply Forall_app; split; assumption.
Qed.

(** The loop never raises; it changes the state only by reading the sensors
    and by its events, which are at full speed up to the closing stop. *)
Lemma loop_frame (fuel : nat) (wall_threshold : Z) :
  forall (prev_state : Robot.motion) (count : Z) (s : State),
  exists (p : nat) (evs : list event),
    state_of (wall_following_loop fuel wall_threshold prev_state count s)
    = advance p 0 evs s /\
    avoidance_trace
      (wall_following_loop fuel wall_threshold prev_state count s) evs.
Proof.
  induction fuel as [| fuel IH]; intros prev_state count s.
  - exists 0%nat, []; simpl; rewrite advance_nothing; split; constructor.
  - destruct fuel as [| fuel].
    + exists 0%nat, []; simpl; rewrite advance_nothing; split; constructor.
    + rewrite loop_iteration.
      destruct (step_count (seen wall_threshold s) prev_state count >=? 15).
      * exists 1%nat, (step_events (seen wall_threshold s) prev_state ++ wheels 0 0).
        split; [reflexivity |].
        exists (step_events (seen wall_threshold s) prev_state).
        split; [reflexivity | apply step_events_full_speed].
      * destruct (IH (step_state (seen wall_threshold s) prev_state)
                    (step_count (seen wall_threshold s) prev_state count)
                    (advance 1 0 (step_events (seen wall_threshold s) prev_state) s))
          as [p [evs [Hstate Htrace]]].
        exists (p + 1)%nat, (step_events (seen wall_threshold s) prev_state ++ evs).
        split.
        -- rewrite Hstate, advance_advance; reflexivity.
        -- apply avoidance_trace_after; [apply step_events_full_speed | exact Htrace].
Qed.

Lemma wall_following_frame (fuel : nat) (motor_speed wall_threshold : Z) (s : State) :
  exists (p : nat) (evs : list event),
    state_of (wall_following fuel motor_speed wall_threshold s) = advance p 0 evs s /\
    avoidance_trace (wall_following fuel motor_speed wall_threshold s) evs.
Proof.
  destruct fuel as [| fuel].
  - exists 0%nat, []; simpl; rewrite advance_nothing; split; constructor.
  - change (wall_following (S fuel) motor_speed wall_threshold)
      with (Robot.move 100 100 ;;
            wall_following_loop fuel wall_threshold Robot.Forward 0).
    rewrite (bind_Ret _ _ _ _ _ (move_writes _ _ s)); cbv beta.
    destruct (loop_frame fuel wall_threshold Robot.Forward 0
                (advance 0 0 (wheels 100 100) s)) as [p [evs [Hstate Htrace]]].
    exists (p + 0)%nat, (wheels 100 100 ++ evs); split.
    + rewrite Hstate, advance_advance; reflexivity.
    + apply avoidance_trace_after;
        [apply wheels_full_speed; reflexivity | exact Htrace].
Qed.

(** C3, as the code has it.  When a reading other than the last two is
    above the threshold, the query form returns [True] and only the sensor
    read has happened; the scheduled form (its Timer attribute set, as on
    every constructed robot) cancels the pending Timer, sets the flag and
    the skip counter to 2 and runs the wall following once, from that state.
    As long as the wall following runs, the flag stays set, the skip counter
    2 and the schedule stopped, and the test has not returned; when the wall
    following returns, the test clears the flag, starts a new Timer and
    returns [False].  When no such reading is above the threshold, both
    forms return [False] and only the sensor read has happened. *)
Theorem test_saw_wall_forms (fuel : nat) (wall_threshold : Z) (s : State) :
  (seen wall_threshold s = true ->
   test_saw_wall (S fuel) false wall_threshold s = Ret true (advance 1 0 [] s) /\
   forall id : nat,
     _timer s = Some id ->
     test_saw_wall (S fuel) true wall_threshold s
     = after_avoidance (wall_following fuel 100 500 (engaged id s)) /\
     flag_local (engaged id s) = true /\
     flag_skip (engaged id s) = 2 /\
     is_running (engaged id s) = false /\
     log (engaged id s) = log s ++ [TimerCancel id] /\
     (forall s1 : State,
        wall_following fuel 100 500 (engaged id s) = OutOfFuel s1 ->
        test_saw_wall (S fuel) true wall_threshold s = OutOfFuel s1 /\
        flag_local s1 = true /\
        flag_skip s1 = 2 /\
        is_running s1 = false /\
        exists evs : list event,
          Forall full_speed evs /\
          log s1 = log s ++ [TimerCancel id] ++ evs) /\
     (forall s1 : State,
        wall_following fuel 100 500 (engaged id s) = Ret tt s1 ->
        test_saw_wall (S fuel) true wall_threshold s = Ret false (released s1) /\
        flag_local (released s1) = false /\
        flag_skip (released s1) = 2 /\
        is_running (released s1) = true /\
        _timer (released s1) = Some (timers_created s) /\
        exists evs : list event,
          avoidance_trace (Ret tt s1) evs /\
          log (released s1)
          = log s ++ [TimerCancel id] ++ evs ++
            [TimerStart (timers_created s) (interval s)])) /\
  (seen wall_threshold s = false ->
   forall thread : bool,
     test_saw_wall (S fuel) thread wall_threshold s = Ret false (advance 1 0 [] s)).
Proof.
  split.
  - intros Hwall; split.
    + rewrite test_saw_wall_query, Hwall; reflexivity.
    + intros id Htimer.
      destruct (wall_following_frame fuel 100 500 (engaged id s))
        as [p [evs [Hstate Htrace]]].
      assert (Hcall :
        test_saw_wall (S fuel) true wall_threshold s
        = (wall_following fuel 100 500 ;;
           modify (set_flag_local false) ;;
           RepeatedTimer.start ;;
           ret false) (engaged id s)).
      { simpl Robot.test_saw_wall.
        unfold bind at 1; unfold get at 1.
        unfold bind at 1; unfold modify at 1.
        rewrite Hwall.
        unfold bind at 1.
        assert (Hstop : RepeatedTimer.stop (tick_prox_reads s)
                        = Ret tt (set_is_running false
                                    (emit (TimerCancel id) (tick_prox_reads s)))).
        { unfold RepeatedTimer.stop, bind, get.
          change (_timer (tick_prox_reads s)) with (_timer s).
          rewrite Htimer; reflexivity. }
        rewrite Hstop.
        unfold bind at 1; unfold modify at 1.
        unfold bind at 1; unfold modify at 1.
        reflexivity. }
      assert (Hform :
        test_saw_wall (S fuel) true wall_threshold s
        = after_avoidance (wall_following fuel 100 500 (engaged id s))).
      { rewrite Hcall; unfold bind at 1.
        destruct (wall_following fuel 100 500 (engaged id s))
          as [[] s1 | e s1 | s1]; simpl in Hstate; simpl after_avoidance;
          [| reflexivity | reflexivity].
        subst s1.
        unfold bind at 1; unfold modify at 1.
        unfold bind at 1.
        rewrite start_when_stopped by reflexivity.
        reflexivity. }
      split; [exact Hform |].
      do 4 (split; [reflexivity |]).
      split; intros s1 Havoid; rewrite Havoid in Hstate, Htrace, Hform;
        simpl in Hstate, Htrace, Hform; subst s1;
        (split; [exact Hform |]); do 3 (split; [reflexivity |]).
      * exists evs; split; [exact Htrace |].
        simpl; rewrite <- app_assoc; reflexivity.
      * split; [reflexivity |].
        exists evs; split; [exact Htrace |].
        unfold released, rescheduled, engaged; simpl.
        rewrite <- !app_assoc; reflexivity.
  - intros Hclear thread.
    simpl Robot.test_saw_wall.
    unfold bind, get, modify; rewrite Hclear, tick_prox_advance; reflexivity.
Qed.

(** *** The wall following does not look at the speed setting *)

Lemma commutes_ret {A} (g : State -> State) (a : A) : commutes g (ret a).
Proof. intros s; reflexivity. Qed.

Lemma commutes_out_of_fuel {A} (g : State -> State) : commutes g (@out_of_fuel A).
Proof. intros s; reflexivity. Qed.

Lemma commutes_raise {A} (g : State -> State) (e : exn) : commutes g (@raise A e).
Proof. intros s; reflexivity. Qed.

Lemma commutes_bind {A B} (g : State -> State) (c : M A) (k : A -> M B) :
  commutes g c -> (forall a, commutes g (k a)) -> commutes g (bind c k).
Proof.
  intros Hc Hk s; unfold bind; rewrite Hc.
  destruct (c s) as [a s' | e s' | s']; simpl; [apply Hk | reflexivity | reflexivity].
Qed.

Lemma commutes_get {A} (g : State -> State) (f : State -> A) :
  (forall s, f (g s) = f s) -> commutes g (get f).
Proof. intros Hf s; unfold get; rewrite Hf; reflexivity. Qed.

Lemma commutes_modify (g f : State -> State) :
  (forall s, f (g s) = g (f s)) -> commutes g (modify f).
Proof. intros Hf s; unfold modify; rewrite Hf; reflexivity. Qed.

Ltac commute :=
  repeat first
    [ apply commutes_ret
    | apply commutes_out_of_fuel
    | apply commutes_raise
    | apply commutes_get; intros; reflexivity
    | apply commutes_modify; intros; reflexivity
    | apply commutes_bind; [| intros ?]
    | match goal with
      | |- commutes _ (if ?b then _ else _) => destruct b
      | |- commutes _ (match ?m with _ => _ end) => destruct m
      end ].

Lemma speed_commutes_move (v l r : Z) :
  commutes (set_speed_field v) (Robot.move l r).
Proof. unfold Robot.move, th_set_var; commute. Qed.

Lemma speed_commutes_sleep (v : Z) (d : float) :
  commutes (set_speed_field v) (time_sleep d).
Proof. unfold time_sleep; commute. Qed.

Lemma speed_commutes_start (v : Z) :
  commutes (set_speed_field v) RepeatedTimer.start.
Proof. unfold RepeatedTimer.start; commute. Qed.

Lemma speed_commutes_stop (v : Z) :
  commutes (set_speed_field v) RepeatedTimer.stop.
Proof. unfold RepeatedTimer.stop; commute. Qed.

Lemma avoidance_commutes (v : Z) (fuel : nat) :
  (forall thread wall_threshold,
      commutes (set_speed_field v) (test_saw_wall fuel thread wall_threshold)) /\
  (forall motor_speed wall_threshold,
      commutes (set_speed_field v) (wall_following fuel motor_speed wall_threshold)) /\
  (forall wall_threshold prev_state count,
      commutes (set_speed_field v)
        (wall_following_loop fuel wall_threshold prev_state count)).
Proof.
  induction fuel as [| fuel [IHtest [IHwall IHloop]]].
  - repeat split; intros; apply commutes_out_of_fuel.
  - repeat split; intros; simpl.
    + repeat first
        [ apply IHwall
        | apply speed_commutes_start
        | apply speed_commutes_stop
        | progress commute ].
    + apply commutes_bind; [apply speed_commutes_move | intros _; apply IHloop].
    + repeat first
        [ apply IHtest
        | apply IHloop
        | apply speed_commutes_move
        | apply speed_commutes_sleep
        | progress commute ].
Qed.

Lemma wall_following_any_motor_speed (fuel : nat) (m1 m2 wall_threshold : Z) :
  wall_following fuel m1 wall_threshold = wall_following fuel m2 wall_threshold.
Proof. destruct fuel; reflexivity. Qed.

(** C10, with the stop that closes the run.  Two runs of [wall_following]
    that differ in the [motor_speed] argument and in the stored speed, on the
    same sensor readings, go the same way and leave the same log; the wheel
    commands of a run all have magnitude 100, up to the two writes of 0 by
    which a run that returns stops the motors. *)
Theorem wall_following_ignores_speed
  (fuel : nat) (m1 m2 wall_threshold v1 v2 : Z) (s : State) :
  log (state_of (wall_following fuel m1 wall_threshold (set_speed_field v1 s)))
  = log (state_of (wall_following fuel m2 wall_threshold (set_speed_field v2 s))) /\
  returned (wall_following fuel m1 wall_threshold (set_speed_field v1 s))
  = returned (wall_following fuel m2 wall_threshold (set_speed_field v2 s)) /\
  exists evs : list event,
    log (state_of (wall_following fuel m1 wall_threshold (set_speed_field v1 s)))
    = log s ++ evs /\
    avoidance_trace (wall_following fuel m1 wall_threshold (set_speed_field v1 s)) evs.
Proof.
  destruct (avoidance_commutes v1 fuel) as [_ [Hone _]].
  destruct (avoidance_commutes v2 fuel) as [_ [Htwo _]].
  rewrite (Hone m1 wall_threshold s), (Htwo m2 wall_threshold s).
  rewrite (wall_following_any_motor_speed fuel m2 m1 wall_threshold).
  destruct (wall_following_frame fuel m1 wall_threshold s) as [p [evs [Hstate Htrace]]].
  destruct (wall_following fuel m1 wall_threshold s) as [a s' | e s' | s'];
    simpl in *; (split; [reflexivity | split; [reflexivity |]]);
    exists evs; subst s'; (split; [reflexivity | exact Htrace]).
Qed.

(** C10 as stated fails on the closing stop: in the run that meets an
    obstacle once and then 15 clear readings, the last wheel command has
    magnitude 0, not 100. *)
Lemma wall_following_stop_is_zero :
  exists s',
    Robot.wall_following Scenario.obstacle_once 18 100 500 Scenario.ready
    = Ret tt s' /\
    last (map commanded_magnitude (commands (log s'))) None = Some 0 /\
    ~ Forall (fun e => commanded_magnitude e = Some 100) (commands (log s')).
Proof.
  eexists; split; [vm_compute; reflexivity |].
  split; [vm_compute; reflexivity |].
  intros Hall.
  rewrite Forall_forall in Hall.
  specialize (Hall (SetVar "motor.left.target" 0)).
  assert (Hzero : commanded_magnitude (SetVar "motor.left.target" 0) = Some 100).
  { apply Hall; vm_compute; intuition. }
  discriminate Hzero.
Qed.

End Avoidance.

(** ** The theorems at work on concrete worlds *)

(** Encoding and decoding -100 and 100, and -100 commanded and read back. *)
Lemma speed_round_trip_example :
  (Robot.encode_speed (-100) = -100 + 65536 /\
   Robot.decode_speed (Robot.encode_speed (-100)) = -100) /\
  (Robot.encode_speed 100 = 100 /\
   Robot.decode_speed (Robot.encode_speed 100) = 100) /\
  Robot.get_speed 65436 65436 Scenario.ready
  = Ret [(Robot.speed_to_mm_s * -100)%float; (Robot.speed_to_mm_s * -100)%float]
      (set_measured_speed
         [(Robot.speed_to_mm_s * -100)%float; (Robot.speed_to_mm_s * -100)%float]
         Scenario.ready).
Proof.
  split; [| split].
  - apply (proj1 (speed_round_trip (-100))); lia.
  - apply (proj1 (proj2 (speed_round_trip 100))); lia.
  - apply (proj2 (proj2 (speed_round_trip (-100))) ltac:(lia) (-100)%float
             Scenario.ready eq_refl).
Defined.

(** A wait of 2 s in which polls 3 to 7 see the flag set: three slices, the
    block, the closing slice. *)
Lemma time_move_interrupted_example :
  Robot.time_move (Scenario.flagged_from_to 3 8) (3 + (4 + 3 + 0)) 2 Scenario.ready
  = Ret tt (advance 0 (3 + 4 + 3) (repeat (Sleep 0.1) (3 + 1)) Scenario.ready).
Proof.
  apply (time_move_interrupted (Scenario.flagged_from_to 3 8) 3 4 0 2 Scenario.ready).
  - intros j Hj; do 4 (destruct j as [| j]; [reflexivity |]); lia.
  - intros j Hj; do 3 (destruct j as [| j]; [reflexivity |]); lia.
  - reflexivity.
  - intros j Hj; do 4 (destruct j as [| j]; [reflexivity |]); lia.
  - reflexivity.
  - reflexivity.
  - reflexivity.
Defined.

(** The watchdog fires on the robot as constructed and sees the obstacle:
    once with the obstacle gone at the next reading, once with a wall that
    stays, cut after 17 units of fuel. *)
Lemma test_saw_wall_forms_example :
  Robot.test_saw_wall Scenario.obstacle_once 18 true 500 Scenario.ready
  = Ret false
      (released
         (advance 15 0
            (wheels 100 100 ++ clear_steps 15 Robot.Forward ++ wheels 0 0)
            (engaged 0 Scenario.ready))) /\
  Robot.test_saw_wall Worlds.wall_ahead 18 true 500 Scenario.ready
  = OutOfFuel
      (advance 15 0 (wheels 100 100 ++ wheels 100 (-100) ++ [Sleep 0.1])
         (engaged 0 Scenario.ready)) /\
  flag_local
    (advance 15 0 (wheels 100 100 ++ wheels 100 (-100) ++ [Sleep 0.1])
       (engaged 0 Scenario.ready)) = true.
Proof.
  split.
  - apply (proj2 (proj2 (proj2 (proj2 (proj2 (proj2
             (proj2 (proj1 (test_saw_wall_forms Scenario.obstacle_once 17 500
                              Scenario.ready) eq_refl) 0%nat eq_refl)))))) _).
    vm_compute; reflexivity.
  - assert (Hcut :
      Robot.wall_following Worlds.wall_ahead 17 100 500 (engaged 0 Scenario.ready)
      = OutOfFuel
          (advance 15 0 (wheels 100 100 ++ wheels 100 (-100) ++ [Sleep 0.1])
             (engaged 0 Scenario.ready)))
      by (vm_compute; reflexivity).
    destruct (proj1 (proj2 (proj2 (proj2 (proj2 (proj2
                (proj2 (proj1 (test_saw_wall_forms Worlds.wall_ahead 17 500
                                 Scenario.ready) eq_refl) 0%nat eq_refl))))))
                _ Hcut) as [Hout [Hflag _]].
    split; [exact Hout | exact Hflag].
Defined.

(** The wall following on an obstacle seen once, then 15 clear readings. *)
Lemma wall_following_returns_example :
  Robot.wall_following Scenario.obstacle_once (18 + 0) 100 500 Scenario.ready
  = Ret tt
      (advance 16 0
         (wheels 100 100 ++ (wheels 100 (-100) ++ [Sleep 0.1]) ++
          clear_steps 15 Robot.Turning ++ wheels 0 0) Scenario.ready).
Proof.
  apply (proj1 (wall_following_returns_after_15_clear Scenario.obstacle_once
                  0 100 500 Scenario.ready)).
  - reflexivity.
  - intros i Hi; destruct i as [| i]; [lia | reflexivity].
Defined.

(** 250 mm forwards at the speed setting 100. *)
Lemma go_straight_plan_example :
  Robot.go_straight Scenario.never_flagged 20 250 Scenario.ready
  = (Robot.time_move Scenario.never_flagged 20
       (250 / (100 * Robot.speed_to_mm_s))%float ;; ret None)
      (advance 0 0
         [SetVar "motor.left.target" 100; SetVar "motor.right.target" 100]
         Scenario.ready).
Proof.
  apply (proj1 (go_straight_plan Scenario.never_flagged 20 250 100
                  Scenario.ready eq_refl eq_refl)).
  reflexivity.
Defined.

(** The robot at the origin asked to go to the origin. *)
Lemma move_to_target_at_target_example :
  Robot.move_to_target Scenario.never_flagged Scenario.sqrt Scenario.degrees
    Scenario.atan2_on_axes Scenario.pow Scenario.distinct 20
    [(-0)%float; 0%float] Scenario.ready
  = Ret (Some false) Scenario.ready.
Proof.
  apply (move_to_target_at_target Scenario.never_flagged Scenario.sqrt
           Scenario.degrees Scenario.atan2_on_axes Scenario.pow
           Scenario.distinct 20 (-0)%float 0%float 0%float 0%float [0%float] Scenario.ready);
    reflexivity.
Defined.


(** The robot at the origin heading to -180 degrees, sent to (0, 100): the
    path angle is 90 degrees and [turn] is asked for 270 degrees. *)
Lemma move_to_target_turn_angle_example :
  Robot.move_to_target Scenario.never_flagged Scenario.sqrt Scenario.degrees
    Scenario.atan2_on_axes Scenario.pow Scenario.distinct 20 [0; 100]%float
    (set_curr_pos [0; 0; -180]%float Scenario.ready)
  = (Robot.turn Scenario.degrees 270 ;;
     Robot.go_straight Scenario.never_flagged 20 100 ;;
     ret None) (set_curr_pos [0; 0; -180]%float Scenario.ready).
Proof.
  apply (proj2 (proj2 (proj2 (proj2
           (move_to_target_turn_angle Scenario.never_flagged Scenario.sqrt
              Scenario.degrees Scenario.atan2_on_axes Scenario.pow
              Scenario.distinct))))
           eq_refl 20%nat 0%float 10000%float 100%float
           (set_curr_pos [0; 0; -180]%float Scenario.ready)
           eq_refl eq_refl eq_refl eq_refl).
Defined.

(** * Further properties of the code *)

(** ** The speed encoding beyond the calibrated range *)

(** The round trip of [move]'s encoding through [get_speed]'s decoding
    recovers a speed exactly when the speed lies between -55536 and 9999:
    negative speeds survive down to -55536, positive ones only up to 9999. *)
Theorem round_trip_domain (v : Z) :
  Robot.decode_speed (Robot.encode_speed v) = v <-> -55536 <= v <= 9999.
Proof.
  unfold Robot.encode_speed, Robot.decode_speed.
  change (2 ^ 16) with 65536.
  destruct (v <? 0) eqn:Hsign.
  - apply Z.ltb_lt in Hsign.
    destruct (v + 65536 >? 9999) eqn:Hbig.
    + apply Z.gtb_lt in Hbig; lia.
    + assert (v + 65536 <= 9999) by (rewrite Z.gtb_ltb in Hbig; apply Z.ltb_ge in Hbig; lia).
      lia.
  - apply Z.ltb_ge in Hsign.
    destruct (v >? 9999) eqn:Hbig.
    + apply Z.gtb_lt in Hbig; lia.
    + assert (v <= 9999) by (rewrite Z.gtb_ltb in Hbig; apply Z.ltb_ge in Hbig; lia).
      lia.
Qed.

(** Every 16-bit reading is what [move] would send for the speed that
    [get_speed] decodes it to, and that speed lies between -55536 and 9999. *)
Theorem reading_round_trip (r : Z) :
  0 <= r < 65536 ->
  Robot.encode_speed (Robot.decode_speed r) = r /\
  -55536 <= Robot.decode_speed r <= 9999.
Proof.
  intros Hr; unfold Robot.encode_speed, Robot.decode_speed.
  change (2 ^ 16) with 65536.
  destruct (r >? 9999) eqn:Hbig.
  - apply Z.gtb_lt in Hbig.
    assert (Hneg : (r - 65536 <? 0) = true) by (apply Z.ltb_lt; lia).
    rewrite Hneg; lia.
  - assert (r <= 9999) by (rewrite Z.gtb_ltb in Hbig; apply Z.ltb_ge in Hbig; lia).
    assert (Hpos : (r <? 0) = false) by (apply Z.ltb_ge; lia).
    rewrite Hpos; lia.
Qed.

(** What [move] writes for a wheel is an unsigned 16-bit value exactly when
    the speed lies between -65536 and 65535. *)
Theorem encoded_speed_is_uint16 (v : Z) :
  0 <= Robot.encode_speed v < 65536 <-> -65536 <= v < 65536.
Proof.
  unfold Robot.encode_speed; change (2 ^ 16) with 65536.
  destruct (v <? 0) eqn:Hsign.
  - apply Z.ltb_lt in Hsign; lia.
  - apply Z.ltb_ge in Hsign; lia.
Qed.

(** ** The detection *)

Lemma but_last_two_front (front : list Z) (r1 r2 : Z) :
  Robot.but_last_two (front ++ [r1; r2]) = front.
Proof.
  unfold Robot.but_last_two.
  rewrite length_app; simpl List.length.
  replace (List.length front + 2 - 2)%nat with (List.length front + 0)%nat by lia.
  rewrite firstn_app_2; simpl; apply app_nil_r.
Qed.

(** The two last readings (the rear sensors) never count: a wall is seen
    exactly when one of the readings before them is above the threshold; and
    with two readings or fewer, no wall is ever seen. *)
Theorem sees_wall_front_only (wall_threshold : Z) :
  (forall (front : list Z) (r1 r2 : Z),
      Robot.sees_wall wall_threshold (front ++ [r1; r2]) = true
      <-> exists x, In x front /\ wall_threshold < x) /\
  (forall readings : list Z,
      (List.length readings <= 2)%nat ->
      Robot.sees_wall wall_threshold readings = false).
Proof.
  split.
  - intros front r1 r2; unfold Robot.sees_wall.
    rewrite but_last_two_front, existsb_exists.
    split; intros [x [Hin Hx]]; exists x; split; try exact Hin.
    + apply Z.gtb_lt in Hx; exact Hx.
    + apply Z.gtb_lt; exact Hx.
  - intros readings Hshort; unfold Robot.sees_wall, Robot.but_last_two.
    replace (List.length readings - 2)%nat with 0%nat by lia.
    reflexivity.
Qed.

(** ** The periodic task *)

(** [start] is idempotent: a second call in a row creates no Timer.  A
    [start] after a [stop] always creates one, whether the task was running
    or not: the Timer [stop] cancelled is replaced by a new one. *)
Theorem start_twice_and_restart (s : State) :
  (RepeatedTimer.start ;; RepeatedTimer.start) s = RepeatedTimer.start s /\
  (forall id : nat,
      _timer s = Some id ->
      (RepeatedTimer.stop ;; RepeatedTimer.start) s
      = Ret tt (rescheduled (set_is_running false (emit (TimerCancel id) s)))) /\
  (_timer s = None ->
   (RepeatedTimer.stop ;; RepeatedTimer.start) s = Raise AttributeError s).
Proof.
  split; [| split].
  - destruct (is_running s) eqn:Hrunning.
    + assert (Hstart : RepeatedTimer.start s = Ret tt s)
        by (unfold RepeatedTimer.start, bind, get; rewrite Hrunning; reflexivity).
      rewrite (bind_Ret _ _ _ _ _ Hstart); reflexivity.
    + rewrite (bind_Ret _ _ _ _ _ (start_when_stopped s Hrunning)).
      rewrite (start_when_stopped s Hrunning).
      unfold RepeatedTimer.start, bind, get; reflexivity.
  - intros id Htimer.
    assert (Hstop : RepeatedTimer.stop s
                    = Ret tt (set_is_running false (emit (TimerCancel id) s)))
      by (unfold RepeatedTimer.stop, bind, get; rewrite Htimer; reflexivity).
    rewrite (bind_Ret _ _ _ _ _ Hstop).
    apply start_when_stopped; reflexivity.
  - intros Htimer.
    unfold RepeatedTimer.stop, bind, get; rewrite Htimer; reflexivity.
Qed.

(** ** The timed wait, undisturbed and blocked *)

Section WaitAlone.

Variable flag_seen : nat -> bool.

(** With no obstacle flagged, the wait sleeps slice after slice until the
    counter has passed the planned duration: [n] slices, when [n] is the
    first number of slices whose sum in binary64 exceeds it.  A negative or
    NaN duration makes no slice and no read of the flag ([n = 0]). *)
Theorem time_move_undisturbed (n fuel : nat) (target : float) (s : State) :
  (forall j, (j < n)%nat -> (elapsed j <=? target)%float = true) ->
  (elapsed n <=? target)%float = false ->
  (forall j, (j < n)%nat -> flag_seen (j + flag_reads s) = false) ->
  Robot.time_move flag_seen (n + S fuel) target s
  = Ret tt (advance 0 n (repeat (Sleep 0.1) n) s).
Proof.
  intros Hrunning Hover Hclear.
  unfold Robot.time_move.
  rewrite (time_move_slices flag_seen n (S fuel) target 0%float s Hrunning Hclear).
  apply time_move_over; exact Hover.
Qed.

Lemma busy_wait_frame (fuel : nat) :
  forall s : State,
  exists f : nat,
    state_of (Robot.busy_wait flag_seen fuel s) = advance 0 f [] s /\
    raised (Robot.busy_wait flag_seen fuel s) = false.
Proof.
  induction fuel as [| fuel IH]; intros s.
  - exists 0%nat; simpl; rewrite advance_nothing; split; reflexivity.
  - rewrite busy_wait_read.
    destruct (flag_seen (flag_reads s)).
    + destruct (IH (advance 0 1 [] s)) as [f [Hstate Hraised]].
      exists (f + 1)%nat; rewrite Hstate, advance_advance; split;
        [reflexivity | exact Hraised].
    + exists 1%nat; split; reflexivity.
Qed.

Lemma time_move_loop_frame (fuel : nat) (target : float) :
  forall (t : float) (s : State),
  exists f n : nat,
    state_of (Robot.time_move_loop flag_seen fuel target t s)
    = advance 0 f (repeat (Sleep 0.1) n) s /\
    raised (Robot.time_move_loop flag_seen fuel target t s) = false.
Proof.
  induction fuel as [| fuel IH]; intros t s.
  - exists 0%nat, 0%nat; simpl; rewrite advance_nothing; split; reflexivity.
  - destruct (t <=? target)%float eqn:Hrunning.
    + destruct (flag_seen (flag_reads s)) eqn:Hflag.
      * rewrite (time_move_flagged flag_seen fuel target t s Hrunning Hflag).
        unfold bind.
        destruct (busy_wait_frame fuel (advance 0 1 [] s)) as [f [Hstate Hraised]].
        destruct (Robot.busy_wait flag_seen fuel (advance 0 1 [] s))
          as [[] s' | e s' | s']; simpl in Hstate, Hraised; subst s';
          cbv beta iota.
        -- destruct (IH target (advance 0 f [] (advance 0 1 [] s)))
             as [f' [n [Hstate' Hraised']]].
           exists (f' + f + 1)%nat, n.
           split; [rewrite Hstate', !advance_advance; reflexivity | exact Hraised'].
        -- discriminate Hraised.
        -- exists (f + 1)%nat, 0%nat; simpl; rewrite advance_advance.
           split; reflexivity.
      * rewrite (time_move_slice flag_seen fuel target t s Hrunning Hflag).
        destruct (IH (t + 0.1)%float (advance 0 1 [Sleep 0.1] s))
          as [f [n [Hstate Hraised]]].
        exists (f + 1)%nat, (S n); rewrite Hstate, advance_advance.
        split; [reflexivity | exact Hraised].
    + rewrite (time_move_over flag_seen fuel target t s Hrunning).
      exists 0%nat, 0%nat; simpl; rewrite advance_nothing; split; reflexivity.
Qed.

(** Whatever the flag does and however long it runs, the wait never raises,
    never writes to the transport and never touches the robot's state: all
    it does is read the flag and sleep slices of 0.1 s. *)
Theorem time_move_only_sleeps (fuel : nat) (target : float) (s : State) :
  exists f n : nat,
    state_of (Robot.time_move flag_seen fuel target s)
    = advance 0 f (repeat (Sleep 0.1) n) s /\
    raised (Robot.time_move flag_seen fuel target s) = false /\
    commands (log (state_of (Robot.time_move flag_seen fuel target s)))
    = commands (log s).
Proof.
  destruct (time_move_loop_frame fuel target 0%float s) as [f [n [Hstate Hraised]]].
  exists f, n; unfold Robot.time_move.
  split; [exact Hstate | split; [exact Hraised |]].
  rewrite Hstate; unfold commands; simpl.
  rewrite filter_app.
  assert (Hnone : filter is_command (repeat (Sleep 0.1) n) = []).
  { clear; induction n as [| n IH]; [reflexivity | exact IH]. }
  rewrite Hnone; apply app_nil_r.
Qed.

Lemma busy_wait_spins (fuel : nat) :
  forall s : State,
    (forall j, flag_seen (j + flag_reads s) = true) ->
    Robot.busy_wait flag_seen fuel s = OutOfFuel (advance 0 fuel [] s).
Proof.
  induction fuel as [| fuel IH]; intros s Hset.
  - simpl; rewrite advance_nothing; reflexivity.
  - rewrite busy_wait_read.
    change (flag_seen (flag_reads s)) with (flag_seen (0 + flag_reads s)).
    rewrite (Hset 0%nat), IH.
    + rewrite advance_advance.
      replace (fuel + 1)%nat with (S fuel) by lia; reflexivity.
    + intros j; rewrite <- (Hset (S j)); f_equal; simpl; lia.
Qed.

(** While the obstacle flag stays set, the wait does not return and does
    not sleep: after the slices slept before the flag was seen, it only
    reads the flag, however long it is run. *)
Theorem time_move_blocked (k fuel : nat) (target : float) (s : State) :
  (forall j, (j <= k)%nat -> (elapsed j <=? target)%float = true) ->
  (forall j, (j < k)%nat -> flag_seen (j + flag_reads s) = false) ->
  (forall j, flag_seen (k + j + flag_reads s) = true) ->
  Robot.time_move flag_seen (k + S fuel) target s
  = OutOfFuel (advance 0 (k + S fuel) (repeat (Sleep 0.1) k) s).
Proof.
  intros Hrunning Hclear Hset.
  unfold Robot.time_move.
  rewrite (time_move_slices flag_seen k (S fuel) target 0%float s).
  - rewrite time_move_flagged.
    + unfold bind; rewrite busy_wait_spins.
      * rewrite !advance_advance, !app_nil_r.
        replace (fuel + 1 + k)%nat with (k + S fuel)%nat by lia; reflexivity.
      * intros j; rewrite <- (Hset (S j)); f_equal; simpl; lia.
    + exact (Hrunning k (le_n k)).
    + rewrite <- (Hset 0%nat); f_equal; simpl; lia.
  - intros j Hj; apply Hrunning; lia.
  - exact Hclear.
Qed.

End WaitAlone.

(** ** The wall following on other sensor sequences *)

Section AvoidanceMore.

Variable prox_horizontal : nat -> list Z.

Local Abbreviation test_saw_wall := (Robot.test_saw_wall prox_horizontal).
Local Abbreviation wall_following := (Robot.wall_following prox_horizontal).
Local Abbreviation wall_following_loop := (Robot.wall_following_loop prox_horizontal).
Local Abbreviation seen_at wall_threshold s i :=
  (Robot.sees_wall wall_threshold (prox_horizontal (i + prox_reads s))).

Lemma clear_steps_last (k : nat) :
  forall prev_state : Robot.motion,
    clear_steps (S k) prev_state
    = clear_steps k prev_state ++ clear_step (flips k prev_state).
Proof.
  induction k as [| k IH]; intros prev_state.
  - simpl; rewrite app_nil_r; reflexivity.
  - change (clear_steps (S (S k)) prev_state)
      with (clear_step prev_state ++ clear_steps (S k) (flip prev_state)).
    rewrite IH, app_assoc; reflexivity.
Qed.

Lemma flips_twice (h : nat) :
  forall prev_state : Robot.motion, flips (h + h) prev_state = prev_state.
Proof.
  induction h as [| h IH]; intros prev_state; [reflexivity |].
  replace (S h + S h)%nat with (S (S (h + h))) by lia.
  simpl; rewrite IH; destruct prev_state; reflexivity.
Qed.

(** [k] clear iterations that bring the count to 15 end the loop. *)
Lemma loop_finishes (k fuel : nat) (wall_threshold : Z)
  (prev_state : Robot.motion) (count : Z) (s : State) :
  (1 <= k)%nat ->
  count + Z.of_nat k = 15 ->
  (forall i, (i < k)%nat -> seen_at wall_threshold s i = false) ->
  wall_following_loop (k + S fuel) wall_threshold prev_state count s
  = Ret tt (advance k 0 (clear_steps k prev_state ++ wheels 0 0) s).
Proof.
  intros Hk Hcount Hclear.
  destruct k as [| k]; [lia |].
  replace (S k + S fuel)%nat with (k + S (S fuel))%nat by lia.
  rewrite loop_clear_run.
  - replace (count + Z.of_nat k) with 14 by lia.
    rewrite loop_last_clear.
    + rewrite advance_advance, clear_steps_last, <- app_assoc.
      replace (1 + k)%nat with (S k) by lia; reflexivity.
    + rewrite <- (Hclear k (Nat.lt_succ_diag_r k)); do 2 f_equal; simpl; lia.
  - intros i Hi; apply Hclear; lia.
  - lia.
Qed.

Lemma turning_spins (fuel : nat) (wall_threshold count : Z) :
  forall s : State,
    count < 15 ->
    (forall i, seen_at wall_threshold s i = true) ->
    wall_following_loop (S fuel) wall_threshold Robot.Turning count s
    = OutOfFuel (advance fuel 0 [] s).
Proof.
  induction fuel as [| fuel IH]; intros s Hcount Hwall.
  - simpl; rewrite advance_nothing; reflexivity.
  - rewrite loop_iteration.
    change (prox_horizontal (prox_reads s))
      with (prox_horizontal (0 + prox_reads s)).
    rewrite (Hwall 0%nat).
    change (step_count true Robot.Turning count) with count.
    destruct (count >=? 15) eqn:Hend; [apply Z.geb_le in Hend; lia |].
    change (step_state true Robot.Turning) with Robot.Turning.
    change (step_events true Robot.Turning) with (@nil event).
    rewrite IH.
    + rewrite advance_advance.
      replace (fuel + 1)%nat with (S fuel) by lia; reflexivity.
    + exact Hcount.
    + intros i; rewrite <- (Hwall (S i)); do 2 f_equal; simpl; lia.
Qed.

Lemma wall_stays_spins
  (fuel : nat) (motor_speed wall_threshold : Z) (s : State) :
  (forall i, seen_at wall_threshold s i = true) ->
  returned (wall_following fuel motor_speed wall_threshold s) = false.
Proof.
  intros Hwall.
  destruct fuel as [| [| [| fuel]]]; [reflexivity | reflexivity | reflexivity |].
  change (wall_following (S (S (S fuel))) motor_speed wall_threshold)
    with (Robot.move 100 100 ;;
          wall_following_loop (S (S fuel)) wall_threshold Robot.Forward 0).
  rewrite (bind_Ret _ _ _ _ _ (move_writes _ _ s)); cbv beta.
  rewrite loop_iteration.
  change (prox_horizontal (prox_reads (advance 0 0 (wheels 100 100) s)))
    with (prox_horizontal (0 + prox_reads s)).
  rewrite (Hwall 0%nat).
  change (step_count true Robot.Forward 0 >=? 15) with false.
  cbv iota.
  rewrite turning_spins; [reflexivity | reflexivity |].
  intros i; rewrite <- (Hwall (S i)); do 2 f_equal; simpl; lia.
Qed.

(** While the wall stays in view, the wall following does not return: it
    sets both wheels forward, turns right once, sleeps 0.1 s and from then
    on only reads the sensors, issuing no further command and no sleep,
    however long it is run. *)
Theorem wall_following_wall_stays
  (fuel : nat) (motor_speed wall_threshold : Z) (s : State) :
  (forall i, seen_at wall_threshold s i = true) ->
  wall_following (S (S (S fuel))) motor_speed wall_threshold s
  = OutOfFuel
      (advance (S fuel) 0
         (wheels 100 100 ++ wheels 100 (-100) ++ [Sleep 0.1]) s).
Proof.
  intros Hwall.
  change (wall_following (S (S (S fuel))) motor_speed wall_threshold)
    with (Robot.move 100 100 ;;
          wall_following_loop (S (S fuel)) wall_threshold Robot.Forward 0).
  rewrite (bind_Ret _ _ _ _ _ (move_writes _ _ s)); cbv beta.
  rewrite loop_iteration.
  change (prox_horizontal (prox_reads (advance 0 0 (wheels 100 100) s)))
    with (prox_horizontal (0 + prox_reads s)).
  rewrite (Hwall 0%nat).
  change (step_count true Robot.Forward 0 >=? 15) with false.
  cbv iota.
  rewrite turning_spins.
  - rewrite !advance_advance.
    replace (fuel + 1 + 0)%nat with (S fuel) by lia; reflexivity.
  - reflexivity.
  - intros i; rewrite <- (Hwall (S i)); do 2 f_equal; simpl; lia.
Qed.

(** An obstacle seen while the loop is in its turning state does not reset
    the count of clear detections: after an obstacle, an even number [h + h]
    of clear detections, a second obstacle and [15 - (h + h)] more clear
    detections, the wall following returns; the 15 clear detections it
    counted were not consecutive, and the second obstacle drew no command. *)
Theorem obstacle_while_turning_keeps_count
  (h fuel : nat) (motor_speed wall_threshold : Z) (s : State) :
  (h + h <= 14)%nat ->
  seen_at wall_threshold s 0 = true ->
  (forall i, (1 <= i <= h + h)%nat -> seen_at wall_threshold s i = false) ->
  seen_at wall_threshold s (S (h + h)) = true ->
  (forall i, (h + h + 2 <= i <= 16)%nat -> seen_at wall_threshold s i = false) ->
  wall_following (19 + fuel) motor_speed wall_threshold s
  = Ret tt
      (advance 17 0
         (wheels 100 100 ++ (wheels 100 (-100) ++ [Sleep 0.1]) ++
          clear_steps (h + h) Robot.Turning ++
          clear_steps (15 - (h + h)) Robot.Turning ++ wheels 0 0) s).
Proof.
  intros Hh Hfirst Hclear Hsecond Hrest.
  change (wall_following (19 + fuel) motor_speed wall_threshold)
    with (Robot.move 100 100 ;;
          wall_following_loop (S (S (16 + fuel))) wall_threshold Robot.Forward 0).
  rewrite (bind_Ret _ _ _ _ _ (move_writes _ _ s)); cbv beta.
  rewrite loop_iteration.
  change (prox_horizontal (prox_reads (advance 0 0 (wheels 100 100) s)))
    with (prox_horizontal (0 + prox_reads s)).
  rewrite Hfirst.
  change (step_count true Robot.Forward 0 >=? 15) with false.
  cbv iota.
  change (step_state true Robot.Forward) with Robot.Turning.
  change (step_count true Robot.Forward 0) with 0.
  change (step_events true Robot.Forward) with (wheels 100 (-100) ++ [Sleep 0.1]).
  rewrite advance_advance.
  replace (S (16 + fuel)) with ((h + h) + S (S (S (14 - (h + h) + fuel))))%nat by lia.
  rewrite loop_clear_run.
  - rewrite flips_twice, advance_advance.
    rewrite loop_iteration.
    match goal with
    | |- context [Robot.sees_wall ?w (prox_horizontal ?n)] =>
        replace (Robot.sees_wall w (prox_horizontal n)) with true
          by (symmetry; rewrite <- Hsecond; do 2 f_equal; simpl; lia)
    end.
    change (step_count true Robot.Turning (0 + Z.of_nat (h + h)))
      with (0 + Z.of_nat (h + h)).
    destruct (0 + Z.of_nat (h + h) >=? 15) eqn:Hend;
      [apply Z.geb_le in Hend; lia |].
    change (step_state true Robot.Turning) with Robot.Turning.
    change (step_events true Robot.Turning) with (@nil event).
    rewrite advance_advance.
    replace (S (S (14 - (h + h) + fuel))) with ((15 - (h + h)) + S fuel)%nat by lia.
    rewrite loop_finishes.
    + rewrite advance_advance.
      replace (15 - (h + h) + (1 + (h + h + (1 + 0))))%nat with 17%nat by lia.
      rewrite app_nil_r, <- !app_assoc; reflexivity.
    + lia.
    + lia.
    + intros i Hi.
      rewrite <- (Hrest (h + h + 2 + i)%nat) by lia.
      do 2 f_equal; simpl; lia.
  - intros i Hi.
    rewrite <- (Hclear (S i)) by lia.
    do 2 f_equal; simpl; lia.
  - lia.
Qed.

(** An obstacle seen while the loop is in its forward state resets the
    count: after an obstacle, an odd number [S (h + h)] of clear detections
    and a second obstacle, the robot turns right again and the wall
    following needs 15 more clear detections to return. *)
Theorem obstacle_while_forward_resets_count
  (h fuel : nat) (motor_speed wall_threshold : Z) (s : State) :
  (S (h + h) <= 14)%nat ->
  seen_at wall_threshold s 0 = true ->
  (forall i, (1 <= i <= S (h + h))%nat -> seen_at wall_threshold s i = false) ->
  seen_at wall_threshold s (S (S (h + h))) = true ->
  (forall i, (1 <= i <= 15)%nat ->
     seen_at wall_threshold s (S (S (h + h)) + i) = false) ->
  wall_following (S (h + h) + 19 + fuel) motor_speed wall_threshold s
  = Ret tt
      (advance (S (h + h) + 17) 0
         (wheels 100 100 ++ (wheels 100 (-100) ++ [Sleep 0.1]) ++
          clear_steps (S (h + h)) Robot.Turning ++
          (wheels 100 (-100) ++ [Sleep 0.1]) ++
          clear_steps 15 Robot.Turning ++ wheels 0 0) s).
Proof.
  intros Hh Hfirst Hclear Hsecond Hrest.
  replace (S (h + h) + 19 + fuel)%nat
    with (S (S (S (h + h + S (S (15 + fuel)))))) by lia.
  change (wall_following (S (S (S (h + h + S (S (15 + fuel))))))
            motor_speed wall_threshold)
    with (Robot.move 100 100 ;;
          wall_following_loop (S (S (h + h + S (S (15 + fuel)))))
            wall_threshold Robot.Forward 0).
  rewrite (bind_Ret _ _ _ _ _ (move_writes _ _ s)); cbv beta.
  rewrite loop_iteration.
  change (prox_horizontal (prox_reads (advance 0 0 (wheels 100 100) s)))
    with (prox_horizontal (0 + prox_reads s)).
  rewrite Hfirst.
  change (step_count true Robot.Forward 0 >=? 15) with false.
  cbv iota.
  change (step_state true Robot.Forward) with Robot.Turning.
  change (step_count true Robot.Forward 0) with 0.
  change (step_events true Robot.Forward) with (wheels 100 (-100) ++ [Sleep 0.1]).
  rewrite advance_advance.
  replace (S (h + h + S (S (15 + fuel))))
    with (S (h + h) + S (S (15 + fuel)))%nat by lia.
  rewrite loop_clear_run.
  - change (flips (S (h + h)) Robot.Turning) with (flips (h + h) Robot.Forward).
    rewrite flips_twice, advance_advance.
    rewrite loop_iteration.
    match goal with
    | |- context [Robot.sees_wall ?w (prox_horizontal ?n)] =>
        replace (Robot.sees_wall w (prox_horizontal n)) with true
          by (symmetry; rewrite <- Hsecond; do 2 f_equal; simpl; lia)
    end.
    change (step_count true Robot.Forward (0 + Z.of_nat (S (h + h))) >=? 15)
      with false.
    cbv iota.
    change (step_state true Robot.Forward) with Robot.Turning.
    change (step_count true Robot.Forward (0 + Z.of_nat (S (h + h)))) with 0.
    change (step_events true Robot.Forward) with (wheels 100 (-100) ++ [Sleep 0.1]).
    rewrite advance_advance.
    replace (S (15 + fuel)) with (15 + S fuel)%nat by lia.
    rewrite loop_finishes.
    + rewrite advance_advance.
      replace (15 + (1 + (S (h + h) + (1 + 0))))%nat with (S (h + h) + 17)%nat by lia.
      rewrite <- !app_assoc; reflexivity.
    + lia.
    + lia.
    + intros i Hi.
      rewrite <- (Hrest (S i)) by lia.
      do 2 f_equal; simpl; lia.
  - intros i Hi.
    rewrite <- (Hclear (S i)) by lia.
    do 2 f_equal; simpl; lia.
  - lia.
Qed.

End AvoidanceMore.

(** ** A firing of the watchdog *)

Section Firing.

Variable prox_horizontal : nat -> list Z.

Local Abbreviation test_saw_wall := (Robot.test_saw_wall prox_horizontal).
Local Abbreviation wall_following := (Robot.wall_following prox_horizontal).
Local Abbreviation seen wall_threshold s :=
  (Robot.sees_wall wall_threshold (prox_horizontal (prox_reads s))).

Lemma stop_cancels (id : nat) (s : State) :
  _timer s = Some id ->
  RepeatedTimer.stop s = Ret tt (set_is_running false (emit (TimerCancel id) s)).
Proof.
  intros Htimer; unfold RepeatedTimer.stop, bind, get; rewrite Htimer; reflexivity.
Qed.

(** The scheduled form on a detection, up to the call of the wall following. *)
Lemma scheduled_detection (fuel id : nat) (wall_threshold : Z) (s : State) :
  seen wall_threshold s = true ->
  _timer s = Some id ->
  test_saw_wall (S fuel) true wall_threshold s
  = (wall_following fuel 100 500 ;;
     modify (set_flag_local false) ;;
     RepeatedTimer.start ;;
     ret false) (engaged id s).
Proof.
  intros Hwall Htimer.
  simpl Robot.test_saw_wall.
  unfold bind at 1; unfold get at 1.
  unfold bind at 1; unfold modify at 1.
  rewrite Hwall.
  unfold bind at 1.
  rewrite (stop_cancels id (tick_prox_reads s) Htimer).
  unfold bind at 1; unfold modify at 1.
  unfold bind at 1; unfold modify at 1.
  reflexivity.
Qed.

(** The scheduled form once the wall following has returned. *)
Lemma scheduled_release (fuel : nat) (s0 s1 : State) :
  wall_following fuel 100 500 s0 = Ret tt s1 ->
  is_running s0 = false ->
  (wall_following fuel 100 500 ;;
   modify (set_flag_local false) ;;
   RepeatedTimer.start ;;
   ret false) s0 = Ret false (released s1).
Proof.
  intros Havoid Hstopped.
  destruct (wall_following_frame prox_horizontal fuel 100 500 s0)
    as [p [evs [Hstate _]]].
  rewrite Havoid in Hstate; simpl in Hstate; subst s1.
  unfold bind at 1; rewrite Havoid.
  unfold bind at 1; unfold modify at 1.
  unfold bind at 1.
  rewrite start_when_stopped by exact Hstopped.
  reflexivity.
Qed.

(** A firing that sees no obstacle: the next Timer is started, the sensors
    are read once, and nothing else happens. *)
Theorem watchdog_sees_nothing (fuel : nat) (s : State) :
  seen 500 s = false ->
  watchdog prox_horizontal (S fuel) s
  = Ret tt (advance 1 0 [] (rescheduled (set_is_running false s))) /\
  log (advance 1 0 [] (rescheduled (set_is_running false s)))
  = log s ++ [TimerStart (timers_created s) (interval s)].
Proof.
  intros Hclear; split; [| unfold advance; simpl; apply app_nil_r].
  unfold watchdog, RepeatedTimer._run.
  unfold bind at 1; unfold modify at 1.
  unfold bind at 1.
  rewrite (start_when_stopped (set_is_running false s) eq_refl).
  unfold bind at 1.
  simpl Robot.test_saw_wall.
  unfold bind at 1; unfold get at 1.
  unfold bind at 1; unfold modify at 1.
  change (prox_reads (rescheduled (set_is_running false s))) with (prox_reads s).
  rewrite Hclear, tick_prox_advance; reflexivity.
Qed.

(** A firing that sees an obstacle, in any state of the timer: the Timer the
    firing has just started is the one it cancels before the wall following
    begins, so no firing is pending while the wall following runs; when the
    wall following has returned, the flag is cleared and one new Timer is
    started. *)
Theorem watchdog_sees_obstacle (fuel : nat) (s s1 : State) :
  seen 500 s = true ->
  wall_following fuel 100 500
    (engaged (timers_created s) (rescheduled (set_is_running false s)))
  = Ret tt s1 ->
  watchdog prox_horizontal (S fuel) s = Ret tt (released s1) /\
  flag_local (released s1) = false /\
  is_running (released s1) = true /\
  _timer (released s1) = Some (S (timers_created s)) /\
  exists evs : list event,
    Forall motion_event evs /\
    log (released s1)
    = log s ++
      [TimerStart (timers_created s) (interval s);
       TimerCancel (timers_created s)] ++
      evs ++ [TimerStart (S (timers_created s)) (interval s)].
Proof.
  intros Hwall Havoid.
  destruct (wall_following_frame prox_horizontal fuel 100 500
              (engaged (timers_created s) (rescheduled (set_is_running false s))))
    as [p [evs [Hstate Htrace]]].
  rewrite Havoid in Hstate, Htrace; simpl in Hstate.
  split.
  - unfold watchdog, RepeatedTimer._run.
    unfold bind at 1; unfold modify at 1.
    unfold bind at 1.
    rewrite (start_when_stopped (set_is_running false s) eq_refl).
    unfold bind at 1.
    rewrite (scheduled_detection fuel (timers_created s) 500
               (rescheduled (set_is_running false s)) Hwall eq_refl).
    rewrite (scheduled_release fuel _ s1 Havoid eq_refl).
    reflexivity.
  - subst s1; repeat split.
    exists evs; split.
    + destruct Htrace as [body [-> Hbody]].
      apply Forall_app; split.
      * apply (Forall_impl motion_event (P := full_speed)); [| exact Hbody].
        intros e; destruct e; simpl; auto.
      * repeat constructor.
    + unfold released, rescheduled, engaged; simpl.
      rewrite <- !app_assoc; reflexivity.
Qed.

(** On a robot whose timer attribute is set (every constructed robot),
    [test_saw_wall] never raises, in either form and however long it runs,
    and leaves the timer attribute set; with the attribute unset, the
    scheduled form raises [AttributeError] on a detection, having only read
    the sensors. *)
Theorem test_saw_wall_never_raises
  (fuel : nat) (thread : bool) (wall_threshold : Z) (s : State) :
  (_timer s <> None ->
   raised (test_saw_wall fuel thread wall_threshold s) = false /\
   _timer (state_of (test_saw_wall fuel thread wall_threshold s)) <> None) /\
  (_timer s = None ->
   seen wall_threshold s = true ->
   test_saw_wall (S fuel) true wall_threshold s
   = Raise AttributeError (advance 1 0 [] s)).
Proof.
  split.
  - intros Harmed.
    destruct fuel as [| fuel]; [split; [reflexivity | exact Harmed] |].
    destruct (seen wall_threshold s) eqn:Hwall.
    + destruct thread.
      * destruct (_timer s) as [id |] eqn:Htimer; [| contradiction].
        rewrite (scheduled_detection fuel id wall_threshold s Hwall Htimer).
        destruct (wall_following_frame prox_horizontal fuel 100 500 (engaged id s))
          as [p [evs [Hstate Htrace]]].
        destruct (wall_following fuel 100 500 (engaged id s))
          as [[] s' | e s' | s'] eqn:Havoid; simpl in Hstate; subst s'.
        -- rewrite (scheduled_release fuel _ _ Havoid eq_refl).
           split; [reflexivity | unfold released, rescheduled; simpl; discriminate].
        -- destruct Htrace.
        -- assert (Hout :
             (wall_following fuel 100 500 ;;
              modify (set_flag_local false) ;;
              RepeatedTimer.start ;;
              ret false) (engaged id s)
             = OutOfFuel (advance p 0 evs (engaged id s)))
             by (unfold bind at 1; rewrite Havoid; reflexivity).
           rewrite Hout.
           split; [reflexivity | simpl; rewrite Htimer; discriminate].
      * rewrite test_saw_wall_query, Hwall.
        split; [reflexivity | exact Harmed].
    + assert (Hret : test_saw_wall (S fuel) thread wall_threshold s
                     = Ret false (advance 1 0 [] s)).
      { simpl Robot.test_saw_wall.
        unfold bind, get, modify; rewrite Hwall, tick_prox_advance; reflexivity. }
      rewrite Hret; split; [reflexivity | exact Harmed].
  - intros Hunset Hwall.
    simpl Robot.test_saw_wall.
    unfold bind at 1; unfold get at 1.
    unfold bind at 1; unfold modify at 1.
    rewrite Hwall.
    unfold bind at 1.
    unfold RepeatedTimer.stop at 1, bind at 1, get at 1.
    change (_timer (tick_prox_reads s)) with (_timer s).
    rewrite Hunset, tick_prox_advance; reflexivity.
Qed.

End Firing.

(** C3 as stated fails: it has the scheduled form clear the flag and restart
    the schedule on every detection.  With a wall that stays in front, the
    wall following does not return, and neither does the test, however long
    it is run: the flag stays set and the schedule stopped. *)
Lemma test_saw_wall_wall_stays_not_released :
  Robot.sees_wall 500 (Worlds.wall_ahead (prox_reads Scenario.ready)) = true /\
  forall fuel : nat,
  exists s1 : State,
    Robot.test_saw_wall Worlds.wall_ahead (S fuel) true 500 Scenario.ready
    = OutOfFuel s1 /\
    flag_local s1 = true /\
    is_running s1 = false.
Proof.
  split; [reflexivity |].
  intros fuel.
  rewrite (scheduled_detection Worlds.wall_ahead fuel 0 500 Scenario.ready
             eq_refl eq_refl).
  unfold bind at 1.
  destruct (wall_following_frame Worlds.wall_ahead fuel 100 500
              (engaged 0 Scenario.ready)) as [p [evs [Hstate Htrace]]].
  assert (Hspins :
    returned (Robot.wall_following Worlds.wall_ahead fuel 100 500
                (engaged 0 Scenario.ready)) = false)
    by (apply wall_stays_spins; intros i; reflexivity).
  destruct (Robot.wall_following Worlds.wall_ahead fuel 100 500
              (engaged 0 Scenario.ready)) as [[] s1 | e s1 | s1];
    [discriminate Hspins | destruct Htrace |].
  simpl in Hstate; subst s1.
  eexists; split; [reflexivity | split; reflexivity].
Qed.

(** ** Turning, going straight and moving to a target *)

Section MotionAlone.

Variable flag_seen : nat -> bool.
Variable math_sqrt : float -> option float.
Variable math_degrees : float -> float.
Variable math_atan2 : float -> float -> float.
Variable float_pow : float -> float -> option float.
Variable same_object : nat -> bool.

Local Abbreviation go_straight := (Robot.go_straight flag_seen).
Local Abbreviation time_move := (Robot.time_move flag_seen).
Local Abbreviation turn := (Robot.turn math_degrees).
Local Abbreviation speed_to_deg_s := (Robot.speed_to_deg_s math_degrees).
Local Abbreviation move_to_target :=
  (Robot.move_to_target flag_seen math_sqrt math_degrees math_atan2 float_pow
     same_object).




(** With no obstacle flagged, [go_straight] of a distance that is not zero
    writes the speed to both wheels (negated for a negative distance), then
    sleeps the [n] slices of its planned duration and returns [None]: its
    last write to the transport is the speed command, it does not stop the
    motors. *)
Theorem go_straight_undisturbed (n fuel : nat) (d fv : float) (s : State) :
  PyFloat.of_int (speed s) = Some fv ->
  (fv * Robot.speed_to_mm_s =? 0)%float = false ->
  (forall j, (j < n)%nat ->
     (elapsed j <=? abs d / (fv * Robot.speed_to_mm_s))%float = true) ->
  (elapsed n <=? abs d / (fv * Robot.speed_to_mm_s))%float = false ->
  (forall j, (j < n)%nat -> flag_seen (j + flag_reads s) = false) ->
  ((0 <? d)%float = true ->
   go_straight (n + S fuel) d s
   = Ret None
       (advance 0 n (wheels (speed s) (speed s) ++ repeat (Sleep 0.1) n) s)) /\
  ((d <? 0)%float = true ->
   go_straight (n + S fuel) d s
   = Ret None
       (advance 0 n (wheels (- speed s) (- speed s) ++ repeat (Sleep 0.1) n) s)).
Proof.
  intros Hfv Hnz Hrunning Hover Hclear.
  assert (Hwait : forall evs,
    time_move (n + S fuel) (abs d / (fv * Robot.speed_to_mm_s))%float
      (advance 0 0 evs s)
    = Ret tt (advance 0 n (evs ++ repeat (Sleep 0.1) n) s)).
  { intros evs; unfold Robot.time_move.
    rewrite (time_move_slices flag_seen n (S fuel) _ 0%float _ Hrunning).
    - rewrite (time_move_over flag_seen fuel _ _ _ Hover).
      rewrite advance_advance.
      replace (n + 0)%nat with n by lia; reflexivity.
    - intros j Hj; rewrite <- (Hclear j Hj); reflexivity. }
  split; intros Hsign; unfold Robot.go_straight;
    rewrite (bind_Ret _ _ _ _ _ (per_speed_defined _ _ _ _ Hfv Hnz));
    unfold bind at 1; unfold get at 1.
  - rewrite Hsign.
    rewrite (bind_Ret _ _ _ _ _ (move_writes _ _ s)); cbv beta.
    rewrite (bind_Ret _ _ _ _ _ (Hwait _)); reflexivity.
  - rewrite (float_neg_not_pos d Hsign), Hsign.
    rewrite (bind_Ret _ _ _ _ _ (move_writes _ _ s)); cbv beta.
    rewrite (bind_Ret _ _ _ _ _ (Hwait _)); reflexivity.
Qed.

(** [move_to_target] indexes its lists after comparing them, item by item
    as line 104 reads them.  An empty target against a pose that is not
    empty raises [IndexError]; a target of one coordinate against a pose of
    two or more raises [IndexError] at the second coordinate, unless the
    square of the first difference has overflowed before
    ([OverflowError]); a pose of only two coordinates, away from the target,
    raises [IndexError] at the angle, unless line 104 has raised before
    ([OverflowError] from a square, [ValueError] from the square root).
    Nothing is commanded in any of these cases. *)
Theorem move_to_target_short_lists (fuel : nat) (s : State) :
  ((1 <= List.length (curr_pos s))%nat ->
   move_to_target fuel [] s = Raise IndexError s) /\
  (forall (t cx cy : float) (crest : list float),
      curr_pos s = cx :: cy :: crest ->
      move_to_target fuel [t] s
      = match float_pow (t - cx) 2 with
        | Some _ => Raise IndexError s
        | None => Raise OverflowError s
        end) /\
  (forall (tx ty cx cy : float) (trest : list float),
      curr_pos s = [cx; cy] ->
      PyFloat.list_eqb same_object (tx :: ty :: trest) [cx; cy] = false ->
      move_to_target fuel (tx :: ty :: trest) s
      = match float_pow (tx - cx) 2, float_pow (ty - cy) 2 with
        | Some px, Some py =>
            match math_sqrt (px + py) with
            | Some _ => Raise IndexError s
            | None => Raise ValueError s
            end
        | _, _ => Raise OverflowError s
        end).
Proof.
  split; [| split].
  - intros Hpose.
    unfold Robot.move_to_target, bind, get.
    destruct (curr_pos s) as [| cx [| cy crest]]; simpl in Hpose; try lia;
      reflexivity.
  - intros t cx cy crest Hpose.
    unfold Robot.move_to_target, bind, get.
    rewrite Hpose.
    assert (Haway : PyFloat.list_eqb same_object [t] (firstn 2 (cx :: cy :: crest))
                    = false).
    { unfold PyFloat.list_eqb; simpl; apply andb_false_r. }
    rewrite Haway.
    unfold Robot.item; simpl nth_error; unfold of_option, ret.
    destruct (float_pow (t - cx) 2); reflexivity.
  - intros tx ty cx cy trest Hpose Haway.
    unfold Robot.move_to_target, bind, get.
    rewrite Hpose.
    change (firstn 2 [cx; cy]) with [cx; cy].
    rewrite Haway.
    unfold Robot.item; simpl nth_error; unfold of_option, ret.
    destruct (float_pow (tx - cx) 2) as [px |]; [| reflexivity].
    destruct (float_pow (ty - cy) 2) as [py |]; [| reflexivity].
    destruct (math_sqrt (px + py)); reflexivity.
Qed.

(** When the path angle equals the current angle (the target lies straight
    ahead) and line 104 has computed the distance (neither square has
    overflowed), [move_to_target] issues no turn command and no turn sleep:
    it does what [go_straight] of the distance does.  (The speed setting
    must still have a product with the angular factor that is not zero,
    since [turn] computes its duration first.) *)
Theorem move_to_target_straight_ahead
  (fuel : nat) (tx ty cx cy angle fv px py distance : float)
  (trest crest : list float) (s : State) :
  curr_pos s = cx :: cy :: angle :: crest ->
  PyFloat.list_eqb same_object (tx :: ty :: trest) [cx; cy] = false ->
  float_pow (tx - cx) 2 = Some px ->
  float_pow (ty - cy) 2 = Some py ->
  math_sqrt (px + py) = Some distance ->
  (math_degrees (math_atan2 (ty - cy) (tx - cx)) - angle =? 0)%float = true ->
  PyFloat.of_int (speed s) = Some fv ->
  (fv * speed_to_deg_s =? 0)%float = false ->
  move_to_target fuel (tx :: ty :: trest) s
  = (go_straight fuel distance ;; ret None) s.
Proof.
  intros Hpose Haway Hpx Hpy Hsqrt Hahead Hfv Hnz.
  unfold Robot.move_to_target.
  unfold bind at 1; unfold get at 1.
  rewrite Hpose.
  change (firstn 2 (cx :: cy :: angle :: crest)) with [cx; cy].
  rewrite Haway.
  unfold Robot.item; simpl nth_error.
  unfold bind at 1; unfold of_option at 1; unfold ret at 1.
  unfold bind at 1; unfold of_option at 1; unfold ret at 1.
  rewrite Hpx.
  unfold bind at 1; unfold of_option at 1; unfold ret at 1.
  unfold bind at 1; unfold of_option at 1; unfold ret at 1.
  unfold bind at 1; unfold of_option at 1; unfold ret at 1.
  rewrite Hpy.
  unfold bind at 1; unfold of_option at 1; unfold ret at 1.
  rewrite Hsqrt.
  unfold bind at 1; unfold of_option at 1; unfold ret at 1.
  unfold bind at 1; unfold of_option at 1; unfold ret at 1.
  destruct (float_zero_cases _ Hahead) as [Hzero | Hzero]; rewrite Hzero.
  - change (180 <? abs 0)%float with false; cbv iota.
    unfold bind at 1; unfold ret at 1.
    assert (Hturn : turn 0 s = Ret (Some false) s).
    { unfold Robot.turn.
      rewrite (bind_Ret _ _ _ _ _ (per_speed_defined _ _ _ _ Hfv Hnz)).
      reflexivity. }
    rewrite (bind_Ret _ _ _ _ _ Hturn); reflexivity.
  - change (180 <? abs (-0))%float with false; cbv iota.
    unfold bind at 1; unfold ret at 1.
    assert (Hturn : turn (-0) s = Ret (Some false) s).
    { unfold Robot.turn.
      rewrite (bind_Ret _ _ _ _ _ (per_speed_defined _ _ _ _ Hfv Hnz)).
      reflexivity. }
    rewrite (bind_Ret _ _ _ _ _ Hturn); reflexivity.
Qed.

End MotionAlone.

(** ** The motion commands run open loop *)

Section OpenLoop.

Variable flag_seen : nat -> bool.
Variable math_sqrt : float -> option float.
Variable math_degrees : float -> float.
Variable math_atan2 : float -> float -> float.
Variable float_pow : float -> float -> option float.
Variable same_object : nat -> bool.

Lemma moves_only_ret {A} (a : A) : moves_only (ret a).
Proof.
  intros s; exists 0%nat, []; simpl; rewrite advance_nothing; split; constructor.
Qed.

Lemma moves_only_raise {A} (e : exn) : moves_only (@raise A e).
Proof.
  intros s; exists 0%nat, []; simpl; rewrite advance_nothing; split; constructor.
Qed.

Lemma moves_only_get {A} (f : State -> A) : moves_only (get f).
Proof.
  intros s; exists 0%nat, []; simpl; rewrite advance_nothing; split; constructor.
Qed.

Lemma moves_only_of_option {A} (e : exn) (o : option A) :
  moves_only (of_option e o).
Proof. destruct o; [apply moves_only_ret | apply moves_only_raise]. Qed.

Lemma moves_only_bind {A B} (c : M A) (k : A -> M B) :
  moves_only c -> (forall a, moves_only (k a)) -> moves_only (bind c k).
Proof.
  intros Hc Hk s; unfold bind.
  destruct (Hc s) as [f [evs [Hstate Hevs]]].
  destruct (c s) as [a s' | e s' | s']; simpl in Hstate; subst s'.
  - destruct (Hk a (advance 0 f evs s)) as [f' [evs' [Hstate' Hevs']]].
    exists (f' + f)%nat, (evs ++ evs'); split.
    + rewrite Hstate', advance_advance; reflexivity.
    + apply Forall_app; split; assumption.
  - exists f, evs; split; [reflexivity | exact Hevs].
  - exists f, evs; split; [reflexivity | exact Hevs].
Qed.

Lemma moves_only_move (l r : Z) : moves_only (Robot.move l r).
Proof.
  intros s; exists 0%nat, (wheels l r); rewrite move_writes.
  split; [reflexivity | repeat constructor].
Qed.

Lemma moves_only_sleep (d : float) : moves_only (time_sleep d).
Proof.
  intros s; unfold time_sleep.
  destruct (PyFloat.is_nan d); [apply moves_only_raise |].
  destruct (sleep_overflows d); [apply moves_only_raise |].
  destruct (d <? 0)%float; [apply moves_only_raise |].
  exists 0%nat, [Sleep d]; split; [reflexivity | repeat constructor].
Qed.

Lemma moves_only_time_move (fuel : nat) (target : float) :
  moves_only (Robot.time_move flag_seen fuel target).
Proof.
  intros s; unfold Robot.time_move.
  destruct (time_move_loop_frame flag_seen fuel target 0%float s)
    as [f [n [Hstate _]]].
  exists f, (repeat (Sleep 0.1) n); split; [exact Hstate |].
  clear; induction n as [| n IH]; [constructor | constructor; [exact I | exact IH]].
Qed.

Lemma moves_only_per_speed (x factor : float) :
  moves_only (Robot.per_speed x factor).
Proof.
  unfold Robot.per_speed.
  apply moves_only_bind; [apply moves_only_get | intros v].
  apply moves_only_bind; [apply moves_only_of_option | intros fv].
  apply moves_only_of_option.
Qed.

Lemma moves_only_turn (turn_angle : float) :
  moves_only (Robot.turn math_degrees turn_angle).
Proof.
  unfold Robot.turn.
  apply moves_only_bind; [apply moves_only_per_speed | intros target_time].
  apply moves_only_bind; [apply moves_only_get | intros v].
  destruct (0 <? turn_angle)%float; [| destruct (turn_angle <? 0)%float].
  - apply moves_only_bind; [apply moves_only_move | intros _].
    apply moves_only_bind; [apply moves_only_sleep | intros _; apply moves_only_ret].
  - apply moves_only_bind; [apply moves_only_move | intros _].
    apply moves_only_bind; [apply moves_only_sleep | intros _; apply moves_only_ret].
  - apply moves_only_ret.
Qed.

Lemma moves_only_go_straight (fuel : nat) (distance : float) :
  moves_only (Robot.go_straight flag_seen fuel distance).
Proof.
  unfold Robot.go_straight.
  apply moves_only_bind; [apply moves_only_per_speed | intros target_time].
  apply moves_only_bind; [apply moves_only_get | intros v].
  apply moves_only_bind.
  - destruct (0 <? distance)%float; [| destruct (distance <? 0)%float];
      [apply moves_only_move | apply moves_only_move | apply moves_only_ret].
  - intros _.
    apply moves_only_bind; [apply moves_only_time_move | intros _; apply moves_only_ret].
Qed.

(** However they end (returning, raising, or still running), [turn],
    [go_straight] and [move_to_target] never change the stored pose, the
    speed setting, the obstacle flag, the skip counter or the timer, and never
    read the proximity sensors: all they do is write to the transport, sleep
    and read the flag.  The pose changes only through [set_position]. *)
Theorem motion_runs_open_loop
  (fuel : nat) (angle distance : float) (target_pos : list float) :
  moves_only (Robot.turn math_degrees angle) /\
  moves_only (Robot.go_straight flag_seen fuel distance) /\
  moves_only
    (Robot.move_to_target flag_seen math_sqrt math_degrees math_atan2 float_pow
       same_object fuel target_pos) /\
  (forall (pos : list float) (s : State),
      curr_pos
        (state_of
           ((Robot.set_position pos ;;
             Robot.move_to_target flag_seen math_sqrt math_degrees math_atan2
               float_pow same_object fuel target_pos) s)) = pos).
Proof.
  assert (Hmove :
    moves_only
      (Robot.move_to_target flag_seen math_sqrt math_degrees math_atan2 float_pow
         same_object fuel target_pos)).
  { unfold Robot.move_to_target, Robot.item.
    apply moves_only_bind; [apply moves_only_get | intros pos].
    destruct (PyFloat.list_eqb same_object target_pos (firstn 2 pos));
      [apply moves_only_ret |].
    apply moves_only_bind; [apply moves_only_of_option | intros tx].
    apply moves_only_bind; [apply moves_only_of_option | intros cx].
    apply moves_only_bind; [apply moves_only_of_option | intros px].
    apply moves_only_bind; [apply moves_only_of_option | intros ty].
    apply moves_only_bind; [apply moves_only_of_option | intros cy].
    apply moves_only_bind; [apply moves_only_of_option | intros py].
    apply moves_only_bind; [apply moves_only_of_option | intros dist].
    apply moves_only_bind; [apply moves_only_of_option | intros a].
    apply moves_only_bind.
    - destruct (180 <? abs (math_degrees (math_atan2 (ty - cy) (tx - cx)) - a))%float;
        [apply moves_only_of_option | apply moves_only_ret].
    - intros turn_angle.
      apply moves_only_bind; [apply moves_only_turn | intros _].
      apply moves_only_bind; [apply moves_only_go_straight | intros _].
      apply moves_only_ret. }
  split; [apply moves_only_turn |].
  split; [apply moves_only_go_straight |].
  split; [exact Hmove |].
  intros pos s.
  unfold bind at 1, Robot.set_position at 1, modify at 1.
  destruct (Hmove (set_curr_pos pos s)) as [f [evs [Hstate _]]].
  rewrite Hstate; reflexivity.
Qed.

End OpenLoop.

(** ** The further properties at work on concrete worlds *)

(** The reading 65436 stands for the speed -100. *)
Lemma reading_round_trip_example :
  Robot.encode_speed (Robot.decode_speed 65436) = 65436 /\
  -55536 <= Robot.decode_speed 65436 <= 9999.
Proof. apply (reading_round_trip 65436); lia. Defined.

(** Five front readings and two rear ones; the rear ones alone. *)
Lemma sees_wall_front_only_example :
  (Robot.sees_wall 500 ([0; 0; 3100; 0; 0] ++ [4000; 4000]) = true
   <-> exists x, In x [0; 0; 3100; 0; 0] /\ 500 < x) /\
  Robot.sees_wall 500 [4000; 4000] = false.
Proof.
  split.
  - apply (proj1 (sees_wall_front_only 500)).
  - apply (proj2 (sees_wall_front_only 500)); simpl; lia.
Defined.

(** Stopping and restarting the watchdog of the robot as constructed. *)
Lemma start_twice_and_restart_example :
  (RepeatedTimer.stop ;; RepeatedTimer.start) Scenario.ready
  = Ret tt (rescheduled
              (set_is_running false (emit (TimerCancel 0) Scenario.ready))).
Proof.
  apply (proj1 (proj2 (start_twice_and_restart Scenario.ready)) 0%nat).
  reflexivity.
Defined.

(** A wait of 0.3 s is three slices: their sum in binary64 exceeds 0.3. *)
Lemma time_move_undisturbed_example :
  Robot.time_move Scenario.never_flagged (3 + 1) 0.3 Scenario.ready
  = Ret tt (advance 0 3 (repeat (Sleep 0.1) 3) Scenario.ready).
Proof.
  apply (time_move_undisturbed Scenario.never_flagged 3 0 0.3 Scenario.ready).
  - intros j Hj; do 3 (destruct j as [| j]; [reflexivity |]); lia.
  - reflexivity.
  - intros j Hj; reflexivity.
Defined.

(** A wait of 1 s with the flag set from the start. *)
Lemma time_move_blocked_example :
  Robot.time_move Worlds.always_flagged (0 + 6) 1 Scenario.ready
  = OutOfFuel (advance 0 (0 + 6) (repeat (Sleep 0.1) 0) Scenario.ready).
Proof.
  apply (time_move_blocked Worlds.always_flagged 0 5 1 Scenario.ready).
  - intros j Hj; destruct j as [| j]; [reflexivity | lia].
  - intros j Hj; lia.
  - intros j; reflexivity.
Defined.

(** The wall following in front of a wall that stays. *)
Lemma wall_following_wall_stays_example :
  Robot.wall_following Worlds.wall_ahead 8 100 500 Scenario.ready
  = OutOfFuel
      (advance 6 0 (wheels 100 100 ++ wheels 100 (-100) ++ [Sleep 0.1])
         Scenario.ready).
Proof.
  apply (wall_following_wall_stays Worlds.wall_ahead 5 100 500 Scenario.ready).
  intros i; reflexivity.
Defined.

(** A second obstacle after four clear detections: the loop is turning. *)
Lemma obstacle_while_turning_example :
  Robot.wall_following (Worlds.wall_twice 4) (19 + 0) 100 500 Scenario.ready
  = Ret tt
      (advance 17 0
         (wheels 100 100 ++ (wheels 100 (-100) ++ [Sleep 0.1]) ++
          clear_steps (2 + 2) Robot.Turning ++
          clear_steps (15 - (2 + 2)) Robot.Turning ++ wheels 0 0)
         Scenario.ready).
Proof.
  apply (obstacle_while_turning_keeps_count (Worlds.wall_twice 4) 2 0 100 500
           Scenario.ready).
  - simpl; lia.
  - reflexivity.
  - intros i Hi; do 5 (destruct i as [| i]; [try reflexivity; simpl in Hi; lia |]).
    simpl in Hi; lia.
  - reflexivity.
  - intros i Hi; do 17 (destruct i as [| i]; [try reflexivity; simpl in Hi; lia |]).
    simpl in Hi; lia.
Defined.

(** A second obstacle after three clear detections: the loop is going
    forward. *)
Lemma obstacle_while_forward_example :
  Robot.wall_following (Worlds.wall_twice 3) (S (1 + 1) + 19 + 0) 100 500
    Scenario.ready
  = Ret tt
      (advance (S (1 + 1) + 17) 0
         (wheels 100 100 ++ (wheels 100 (-100) ++ [Sleep 0.1]) ++
          clear_steps (S (1 + 1)) Robot.Turning ++
          (wheels 100 (-100) ++ [Sleep 0.1]) ++
          clear_steps 15 Robot.Turning ++ wheels 0 0) Scenario.ready).
Proof.
  apply (obstacle_while_forward_resets_count (Worlds.wall_twice 3) 1 0 100 500
           Scenario.ready).
  - simpl; lia.
  - reflexivity.
  - intros i Hi; do 4 (destruct i as [| i]; [try reflexivity; simpl in Hi; lia |]).
    simpl in Hi; lia.
  - reflexivity.
  - intros i Hi; do 16 (destruct i as [| i]; [try reflexivity; simpl in Hi; lia |]).
    simpl in Hi; lia.
Defined.

(** A firing over the open floor. *)
Lemma watchdog_sees_nothing_example :
  watchdog Worlds.open_floor 1 Scenario.ready
  = Ret tt (advance 1 0 [] (rescheduled (set_is_running false Scenario.ready))).
Proof.
  apply (proj1 (watchdog_sees_nothing Worlds.open_floor 0 Scenario.ready eq_refl)).
Defined.

(** A firing in front of an obstacle that is gone at the next snapshot. *)
Lemma watchdog_sees_obstacle_example :
  watchdog Scenario.obstacle_once 18 Scenario.ready
  = Ret tt
      (released
         (advance 15 0
            (wheels 100 100 ++ clear_steps 15 Robot.Forward ++ wheels 0 0)
            (engaged 1 (rescheduled (set_is_running false Scenario.ready))))).
Proof.
  apply (fun Havoid =>
           proj1 (watchdog_sees_obstacle Scenario.obstacle_once 17
                    Scenario.ready _ eq_refl Havoid)).
  vm_compute; reflexivity.
Defined.

(** The scheduled form on the robot as constructed. *)
Lemma test_saw_wall_never_raises_example :
  raised (Robot.test_saw_wall Scenario.obstacle_once 18 true 500 Scenario.ready)
  = false /\
  _timer (state_of (Robot.test_saw_wall Scenario.obstacle_once 18 true 500
                      Scenario.ready)) <> None.
Proof.
  apply (proj1 (test_saw_wall_never_raises Scenario.obstacle_once 18 true 500
                  Scenario.ready)).
  vm_compute; intros Hnone; discriminate Hnone.
Defined.


(** 10 mm forwards at the speed setting 100: four slices. *)
Lemma go_straight_undisturbed_example :
  Robot.go_straight Scenario.never_flagged (4 + 1) 10 Scenario.ready
  = Ret None
      (advance 0 4 (wheels 100 100 ++ repeat (Sleep 0.1) 4) Scenario.ready).
Proof.
  apply (proj1 (go_straight_undisturbed Scenario.never_flagged 4 0 10 100
                  Scenario.ready eq_refl eq_refl
                  ltac:(intros j Hj;
                        do 4 (destruct j as [| j]; [reflexivity |]); lia)
                  eq_refl
                  ltac:(intros j Hj; reflexivity))).
  reflexivity.
Defined.

(** An empty target; a target of one coordinate, near and too far; a pose
    without its angle, with the target near and too far. *)
Lemma move_to_target_short_lists_example :
  Robot.move_to_target Scenario.never_flagged Scenario.sqrt Scenario.degrees
    Scenario.atan2_on_axes Scenario.pow Scenario.distinct 20 [] Scenario.ready
  = Raise IndexError Scenario.ready /\
  Robot.move_to_target Scenario.never_flagged Scenario.sqrt Scenario.degrees
    Scenario.atan2_on_axes Scenario.pow Scenario.distinct 20 [100]%float
    Scenario.ready
  = Raise IndexError Scenario.ready /\
  Robot.move_to_target Scenario.never_flagged Scenario.sqrt Scenario.degrees
    Scenario.atan2_on_axes Scenario.pow Scenario.distinct 20 [1e200]%float
    Scenario.ready
  = Raise OverflowError Scenario.ready /\
  Robot.move_to_target Scenario.never_flagged Scenario.sqrt Scenario.degrees
    Scenario.atan2_on_axes Scenario.pow Scenario.distinct 20 [100; 0]%float
    (set_curr_pos [0; 0]%float Scenario.ready)
  = Raise IndexError (set_curr_pos [0; 0]%float Scenario.ready) /\
  Robot.move_to_target Scenario.never_flagged Scenario.sqrt Scenario.degrees
    Scenario.atan2_on_axes Scenario.pow Scenario.distinct 20 [1e200; 0]%float
    (set_curr_pos [0; 0]%float Scenario.ready)
  = Raise OverflowError (set_curr_pos [0; 0]%float Scenario.ready).
Proof.
  split; [| split; [| split; [| split]]].
  - apply (proj1 (move_to_target_short_lists Scenario.never_flagged Scenario.sqrt
                    Scenario.degrees Scenario.atan2_on_axes Scenario.pow
                    Scenario.distinct 20 Scenario.ready)); simpl; lia.
  - apply (proj1 (proj2 (move_to_target_short_lists Scenario.never_flagged
                           Scenario.sqrt Scenario.degrees Scenario.atan2_on_axes
                           Scenario.pow Scenario.distinct 20 Scenario.ready))
             100%float 0%float 0%float [0%float] eq_refl).
  - apply (proj1 (proj2 (move_to_target_short_lists Scenario.never_flagged
                           Scenario.sqrt Scenario.degrees Scenario.atan2_on_axes
                           Scenario.pow Scenario.distinct 20 Scenario.ready))
             1e200%float 0%float 0%float [0%float] eq_refl).
  - apply (proj2 (proj2 (move_to_target_short_lists Scenario.never_flagged
                           Scenario.sqrt Scenario.degrees Scenario.atan2_on_axes
                           Scenario.pow Scenario.distinct 20
                           (set_curr_pos [0; 0]%float Scenario.ready)))
             100%float 0%float 0%float 0%float [] eq_refl eq_refl).
  - apply (proj2 (proj2 (move_to_target_short_lists Scenario.never_flagged
                           Scenario.sqrt Scenario.degrees Scenario.atan2_on_axes
                           Scenario.pow Scenario.distinct 20
                           (set_curr_pos [0; 0]%float Scenario.ready)))
             1e200%float 0%float 0%float 0%float [] eq_refl eq_refl).
Defined.

(** The robot at the origin heading along x, sent to (100, 0). *)
Lemma move_to_target_straight_ahead_example :
  Robot.move_to_target Scenario.never_flagged Scenario.sqrt Scenario.degrees
    Scenario.atan2_on_axes Scenario.pow Scenario.distinct 20 [100; 0]%float
    Scenario.ready
  = (Robot.go_straight Scenario.never_flagged 20 100 ;; ret None) Scenario.ready.
Proof.
  apply (move_to_target_straight_ahead Scenario.never_flagged Scenario.sqrt
           Scenario.degrees Scenario.atan2_on_axes Scenario.pow Scenario.distinct
           20 100%float 0%float 0%float 0%float 0%float 100%float
           10000%float 0%float 100%float [] []
           Scenario.ready); reflexivity.
Defined.
